(** * Time & Weather agent (scenario 01): harness and local tools

    A shallow embedding of the two scripts of the scenario,
    [time_weather_agent.py] and [time_weather_agent_devui.py]:
    the credential selection that runs at import time, the two
    in-process tools, and the console drivers that feed utterances
    to [agent.run] on one conversation thread.

    The [agent_framework] package (ChatAgent, its threads and the
    tool-calling loop inside [agent.run]), [pytz] and the clock are
    external to the repository; they appear as the classes
    [AgentFramework], [OpenAIPackage], [DevUIPackage] and [TimeLib]. *)

From Stdlib Require Import String Ascii NArith List Bool Lia.
From stdpp Require Import base option strings list gmap.

Local Open Scope string_scope.
Local Open Scope list_scope.

(** ** Python [str] operations

    A [str] is modelled as a Rocq [string] whose characters are the code
    points below 256; [lower] and [isspace] follow the Unicode tables on
    that range. Code points above 255 are outside the model. *)
Module PyStr.

Definition in_range (lo hi n : N) : bool := ((lo <=? n) && (n <=? hi))%N.

(** [str.isspace] on one character: TAB..CR, FS..US, SPACE, NEL, NBSP. *)
Definition isspace (c : ascii) : bool :=
  let n := N_of_ascii c in
  in_range 9 13 n || in_range 28 32 n || (n =? 133)%N || (n =? 160)%N.

(** [str.lower] on one character: A-Z and the capital letters of the
    Latin-1 supplement (all of 0xC0-0xDE but the multiplication sign). *)
Definition lower_char (c : ascii) : ascii :=
  let n := N_of_ascii c in
  if in_range 65 90 n || in_range 192 214 n || in_range 216 222 n
  then ascii_of_N (n + 32)
  else c.

Fixpoint lower (s : string) : string :=
  match s with
  | EmptyString => EmptyString
  | String c s' => String (lower_char c) (lower s')
  end.

Fixpoint lstrip (s : string) : string :=
  match s with
  | EmptyString => EmptyString
  | String c s' => if isspace c then lstrip s' else s
  end.

Fixpoint rstrip (s : string) : string :=
  match s with
  | EmptyString => EmptyString
  | String c s' =>
      match rstrip s' with
      | EmptyString => if isspace c then EmptyString else String c EmptyString
      | r => String c r
      end
  end.

(** [s.strip()] with no argument. *)
Definition strip (s : string) : string := rstrip (lstrip s).

(** Every character of [s] is whitespace. *)
Fixpoint all_space (s : string) : bool :=
  match s with
  | EmptyString => true
  | String c s' => isspace c && all_space s'
  end.

(** Truthiness of a [str]: [not s] holds exactly for the empty string. *)
Definition is_empty (s : string) : bool :=
  match s with EmptyString => true | String _ _ => false end.

End PyStr.

(** ** Local tools ([time_weather_agent_devui.py]) *)
Module LocalTools.
Import PyStr.

(** The dict literal of [get_timezone_for_city]. *)
Definition city_timezones : gmap string string :=
  list_to_map
    [ ("london", "Europe/London");
      ("berlin", "Europe/Berlin");
      ("new york", "America/New_York");
      ("tokyo", "Asia/Tokyo");
      ("sydney", "Australia/Sydney");
      ("seattle", "America/Los_Angeles");
      ("paris", "Europe/Paris") ].

Definition get_timezone_for_city (city : string) : string :=
  let city_lower := strip (lower city) in
  match city_timezones !! city_lower with
  | Some tz => "The timezone for " +:+ city +:+ " is " +:+ tz +:+ "."
  | None => "Unknown city '" +:+ city +:+ "'. Try a major city name."
  end.

End LocalTools.

(** ** Exceptions and the harness monad *)

(** An instance of a class derived from [Exception]: its class name and
    [str(e)]. *)
Record py_exception := { exc_class : string; exc_str : string }.

(** What a [raise] can carry. [KeyboardInterrupt] and the other classes
    that derive from [BaseException] only (SystemExit, CancelledError)
    are not caught by [except Exception]. *)
Inductive exn :=
| Exc (e : py_exception)
| KeyboardInterrupt
| BaseExc (cls msg : string).

Definition NameError (name : string) : exn :=
  Exc {| exc_class := "NameError";
         exc_str := "name '" +:+ name +:+ "' is not defined" |}.
Definition ValueError (msg : string) : exn :=
  Exc {| exc_class := "ValueError"; exc_str := msg |}.
Definition KeyError (key : string) : exn :=
  Exc {| exc_class := "KeyError"; exc_str := "'" +:+ key +:+ "'" |}.

(** Values built by the [openai] and [agent_framework] constructors. The
    constructors only store their arguments. *)
Record AsyncOpenAI := { base_url : string; api_key : string }.

Record OpenAIChatClient :=
  { model_id : option string;
    client_api_key : string;
    async_client : AsyncOpenAI }.

Inductive tool :=
| MCPStreamableHTTPTool (name url : string) (approval_mode : option string)
| HostedMCPTool (name url : string)
| FunctionTool (function_name : string).

Record ChatAgent :=
  { chat_client : OpenAIChatClient;
    agent_name : string;
    instructions : string;
    tools : list tool }.

(** The part of [agent_framework] the drivers call. [fw_state] is all
    that lives behind the calls: the transcripts of the threads, the
    connections, the completion backend. A [thread] is the reference to
    an AgentThread object; the drivers only hold and pass it. *)
Class AgentFramework := {
  fw_state : Type;
  thread : Type;
  get_new_thread : ChatAgent -> fw_state -> thread * fw_state;
  (** [await agent.run(text, thread=t)], projected to [result.text]. *)
  agent_run : ChatAgent -> string -> thread -> fw_state ->
              (exn + string) * fw_state
}.

Section Harness.
Context `{AgentFramework}.

(** What a driver does that can be observed from outside. *)
Inductive event :=
| EvPrint (text : string)
| EvInput (prompt : string)
| EvChatAgent (a : ChatAgent)
| EvNewThread (a : ChatAgent) (t : thread)
| EvRun (a : ChatAgent) (utterance : string) (t : thread)
| EvSleep (seconds : nat).

Record world := { fw : fw_state; trace : list event }.

Definition emit (e : event) (w : world) : world :=
  {| fw := fw w; trace := trace w ++ [e] |}.

(** A computation either returns or raises, and updates the world. *)
Definition M (A : Type) : Type := world -> (exn + A) * world.

Definition ret {A} (a : A) : M A := fun w => (inr a, w).
Definition raise {A} (e : exn) : M A := fun w => (inl e, w).
Definition bind {A B} (m : M A) (k : A -> M B) : M B :=
  fun w => match m w with
           | (inr a, w') => k a w'
           | (inl e, w') => (inl e, w')
           end.

(** [try: body / except KeyboardInterrupt: on_interrupt /
    except Exception as e: on_exception e]; anything else propagates. *)
Definition try_except {A} (body : M A)
    (on_interrupt : option (M A)) (on_exception : py_exception -> M A) : M A :=
  fun w => match body w with
           | (inr a, w') => (inr a, w')
           | (inl (Exc e), w') => on_exception e w'
           | (inl KeyboardInterrupt, w') =>
               match on_interrupt with
               | Some h => h w'
               | None => (inl KeyboardInterrupt, w')
               end
           | (inl (BaseExc c m), w') => (inl (BaseExc c m), w')
           end.

Definition print (text : string) : M unit :=
  fun w => (inr tt, emit (EvPrint text) w).

Definition sleep (seconds : nat) : M unit :=
  fun w => (inr tt, emit (EvSleep seconds) w).

Definition new_ChatAgent (a : ChatAgent) : M ChatAgent :=
  fun w => (inr a, emit (EvChatAgent a) w).

Definition new_thread (a : ChatAgent) : M thread :=
  fun w => let (t, s) := get_new_thread a (fw w) in
           (inr t, emit (EvNewThread a t) {| fw := s; trace := trace w |}).

Definition run (a : ChatAgent) (utterance : string) (t : thread) : M string :=
  fun w => let (r, s) := agent_run a utterance t (fw w) in
           (r, {| fw := s; trace := trace (emit (EvRun a utterance t) w) |}).

(** [os.environ[key]]. *)
Definition environ_getitem (environ : gmap string string) (key : string)
  : M string :=
  match environ !! key with
  | Some v => ret v
  | None => raise (KeyError key)
  end.

(** Reading a global name of a module whose bound names are [bound]. *)
Definition load_global (bound : list string) (name : string) : M unit :=
  if bool_decide (name ∈ bound) then ret tt else raise (NameError name).

End Harness.

Declare Scope harness_scope.
Delimit Scope harness_scope with harness.
Notation "'do' x <- m ; k" := (bind m (fun x => k))
  (at level 10, x name, m at level 100, k at level 200) : harness_scope.
Notation "m ;; k" := (bind m (fun _ => k))
  (at level 100, k at level 200, right associativity) : harness_scope.

Local Open Scope harness_scope.

(** Text helpers of the scripts. *)
Definition nl : string := String (ascii_of_nat 10) EmptyString.

(** [s * n]. *)
Fixpoint str_mul (s : string) (n : nat) : string :=
  match n with
  | O => EmptyString
  | S n' => s +:+ str_mul s n'
  end.

(** What the console can deliver to one call of [input()]: a line, or an
    exception raised inside the call (EOFError at end of input,
    KeyboardInterrupt on Ctrl-C). *)
Inductive stdin_event :=
| Line (text : string)
| InputRaises (e : exn).

(** How one pass through the body of a [while True] loop ends. *)
Inductive control := Continue | Break.

(** How a driver stands once the scripted console input is used up:
    returned, still blocked in [input()], or left by an exception. *)
Inductive status :=
| Returned
| AwaitingInput
| Escaped (e : exn).

Section Drivers.
Context `{AgentFramework}.

Definition input (prompt : string) (i : stdin_event) : M string :=
  fun w => match i with
           | Line text => (inr text, emit (EvInput prompt) w)
           | InputRaises e => (inl e, emit (EvInput prompt) w)
           end.

(** [while True: body], driven by the console events still to come. *)
Fixpoint while_true (body : stdin_event -> M control)
    (inputs : list stdin_event) (w : world) : status * world :=
  match inputs with
  | [] => (AwaitingInput, w)
  | i :: rest =>
      match body i w with
      | (inr Continue, w') => while_true body rest w'
      | (inr Break, w') => (Returned, w')
      | (inl e, w') => (Escaped e, w')
      end
  end.

(** [for x in xs: body x]. *)
Fixpoint for_each {A} (xs : list A) (body : A -> M unit) : M unit :=
  match xs with
  | [] => ret tt
  | x :: rest => body x;; for_each rest body
  end.

Definition finish (m : M unit) (w : world) : status * world :=
  match m w with
  | (inr _, w') => (Returned, w')
  | (inl e, w') => (Escaped e, w')
  end.

(** The client configuration block at the top of both scripts:
    returns [(token, endpoint)]. [environ] is [os.environ] after
    [load_dotenv()]. *)
Definition client_configuration (environ : gmap string string)
  : M (string * string) :=
  match environ !! "GITHUB_TOKEN" with
  | Some _ =>
      do token <- environ_getitem environ "GITHUB_TOKEN";
      let endpoint := "https://models.github.ai/inference" in
      print "Using GitHub Token for authentication";;
      ret (token, endpoint)
  | None =>
      match environ !! "AZURE_OPENAI_API_KEY" with
      | Some _ =>
          do token <- environ_getitem environ "AZURE_OPENAI_API_KEY";
          do endpoint <- environ_getitem environ "AZURE_OPENAI_ENDPOINT";
          print "Using Azure OpenAI Token for authentication";;
          ret (token, endpoint)
      | None =>
          raise (ValueError
                   "No API key found. Set GITHUB_TOKEN or AZURE_OPENAI_API_KEY.")
      end
  end.

End Drivers.

(** ** Reading a trace *)
Section Observations.
Context `{AgentFramework}.

Definition is_print (e : event) : Prop :=
  match e with EvPrint _ => True | _ => False end.

(** The events a console loop may produce once it runs on [agent] and
    the thread [t]: console reads and writes, and [agent.run] on that
    same agent and thread. *)
Definition turn_event (agent : ChatAgent) (t : thread) (e : event) : Prop :=
  match e with
  | EvPrint _ | EvInput _ => True
  | EvRun a _ t' => a = agent /\ t' = t
  | EvChatAgent _ | EvNewThread _ _ | EvSleep _ => False
  end.

(** The utterances handed to [agent.run], oldest first. *)
Definition runs (tr : list event) : list string :=
  omap (fun e => match e with EvRun _ u _ => Some u | _ => None end) tr.

(** A line that is neither blank nor an exit word: the loop passes it,
    stripped, to [agent.run]. *)
Definition is_utterance (line : string) : Prop :=
  PyStr.strip line <> EmptyString /\
  PyStr.lower (PyStr.strip line) ∉ ["quit"; "exit"; "q"].

End Observations.

(** ** The chat client constructor *)

(** [OpenAIChatClient(model_id=..., api_key=..., async_client=...)]
    belongs to [agent_framework.openai]. It validates its settings and
    can refuse them (a model name that is [None], for one) by raising;
    [chat_client_init] says whether it does, and with what. When it
    returns, the client holds the arguments it was given. *)
Class OpenAIPackage := {
  chat_client_init : option string -> string -> AsyncOpenAI -> option exn
}.

Section Clients.
Context `{AgentFramework} `{OpenAIPackage}.

Definition new_OpenAIChatClient (model : option string) (key : string)
    (client : AsyncOpenAI) : M OpenAIChatClient :=
  match chat_client_init model key client with
  | Some e => raise e
  | None =>
      ret {| model_id := model; client_api_key := key; async_client := client |}
  end.

End Clients.

(** ** [time_weather_agent.py] *)
Module Console.
Import PyStr.

(** The module-level names the functions below read. *)
Record globals := {
  token : string;
  endpoint : string;
  async_openai_client : AsyncOpenAI;
  completion_client : OpenAIChatClient;
  medium_client : OpenAIChatClient;
  small_client : OpenAIChatClient;
  USER_MCP_URL : string;
  WEATHER_MCP_URL : string
}.

(** Every name bound at module level: by the imports, by the
    assignments and by the three [def]s. *)
Definition bound_names : list string :=
  [ "os"; "asyncio"; "Annotated"; "datetime"; "pytz"; "Field";
    "AsyncOpenAI"; "load_dotenv"; "ChatAgent"; "HostedMCPTool";
    "MCPStreamableHTTPTool"; "OpenAIChatClient";
    "token"; "endpoint"; "async_openai_client";
    "completion_model_name"; "medium_model_name"; "small_model_name";
    "completion_client"; "medium_client"; "small_client";
    "USER_MCP_URL"; "WEATHER_MCP_URL"; "AGENT_INSTRUCTIONS";
    "run_interactive_conversation"; "run_demo_conversation"; "main" ].

Definition AGENT_INSTRUCTIONS : string :=
  "You are a helpful Time & Weather assistant that helps users know the current time and weather for their location."
  +:+ nl +:+ nl +:+ "Use the MCP tools for fullfilling your tasks.".

(** The three characters the demo driver repeats as a rule (kept as the
    bytes of the source file; only ever printed). *)
Definition rule : string := "â”€".

Definition demo_queries : list string :=
  [ "I am currently in London";
    "What is the weather now here?";
    "What time is it for me right now?";
    "I moved to Berlin, what is the weather like today?";
    "Can you remind me where I said I am based?" ].

Section WithFramework.
Context `{AgentFramework} `{OpenAIPackage}.

(** The statements of the module from [load_dotenv()] down to the
    [def]s. [AsyncOpenAI] is given a token that is a string, so it only
    stores its arguments; the three chat clients are built in the order
    of the file, and the first constructor that raises ends the module. *)
Definition module_body (environ : gmap string string) : M globals :=
  do cfg <- client_configuration environ;
  let token := fst cfg in
  let endpoint := snd cfg in
  let async_openai_client := {| base_url := endpoint; api_key := token |} in
  let completion_model_name := environ !! "COMPLETION_DEPLOYMENT_NAME" in
  let medium_model_name := environ !! "MEDIUM_DEPLOYMENT_MODEL_NAME" in
  let small_model_name := environ !! "SMALL_DEPLOYMENT_MODEL_NAME" in
  do completion_client <-
    new_OpenAIChatClient completion_model_name token async_openai_client;
  do medium_client <-
    new_OpenAIChatClient medium_model_name token async_openai_client;
  do small_client <-
    new_OpenAIChatClient small_model_name token async_openai_client;
  ret {| token := token;
         endpoint := endpoint;
         async_openai_client := async_openai_client;
         completion_client := completion_client;
         medium_client := medium_client;
         small_client := small_client;
         USER_MCP_URL :=
           default "http://localhost:8002/mcp" (environ !! "USER_MCP_URL");
         WEATHER_MCP_URL :=
           default "http://localhost:8003/mcp" (environ !! "WEATHER_MCP_URL") |}.

Definition global (name : string) : M unit := load_global bound_names name.

(** The [ChatAgent(...)] expression of [run_interactive_conversation];
    names are read in evaluation order. *)
Definition interactive_agent (g : globals) : M ChatAgent :=
  global "ChatAgent";;
  global "medium_client";;
  global "AGENT_INSTRUCTIONS";;
  global "MCPStreamableHTTPTool";;
  global "USER_MCP_URL";;
  let user_service :=
    MCPStreamableHTTPTool "UserService" (USER_MCP_URL g) (Some "never_require") in
  global "MCPStreamableHTTPTool";;
  global "WEATHER_MCP_URL";;
  let weather_service :=
    MCPStreamableHTTPTool "WeatherService" (WEATHER_MCP_URL g) (Some "never_require") in
  new_ChatAgent
    {| chat_client := medium_client g;
       agent_name := "TimeWeatherAgent";
       instructions := AGENT_INSTRUCTIONS;
       tools := [user_service; weather_service] |}.

(** The body of the [while True] loop of [run_interactive_conversation]. *)
Definition interactive_turn (agent : ChatAgent) (t : thread)
    (i : stdin_event) : M control :=
  try_except
    (do line <- input (nl +:+ "You 2: ") i;
     let user_input := strip line in
     if is_empty user_input then ret Continue
     else if bool_decide (lower user_input ∈ ["quit"; "exit"; "q"]) then
       print (nl +:+ "Goodbye! Have a great day!");;
       ret Break
     else
       do result_text <- run agent user_input t;
       print (nl +:+ "Agent: " +:+ result_text);;
       ret Continue)
    (Some (print (nl +:+ nl +:+ "Conversation interrupted. Goodbye!");;
           ret Break))
    (fun e =>
       print (nl +:+ "Error: " +:+ exc_str e);;
       print "Please try again or type 'quit' to exit.";;
       ret Continue).

Definition interactive_banner : M unit :=
  print (nl +:+ str_mul "=" 60);;
  print "Time & Weather Agent - Scenario 1";;
  print (str_mul "=" 60);;
  print (nl +:+ "This agent remembers your location and can tell you the time");;
  print "and weather. Try these example queries:";;
  print "  - 'I am currently in London'";;
  print "  - 'What is the weather now here?'";;
  print "  - 'What time is it for me right now?'";;
  print "  - 'I moved to Berlin, what is the weather like today?'";;
  print "  - 'Can you remind me where I said I am based?'";;
  print (nl +:+ "Type 'quit' or 'exit' to end the conversation.");;
  print (str_mul "=" 60 +:+ nl).

Definition interactive_setup (g : globals) : M (ChatAgent * thread) :=
  interactive_banner;;
  do agent <- interactive_agent g;
  do t <- new_thread agent;
  ret (agent, t).

Definition run_interactive_conversation (g : globals)
    (inputs : list stdin_event) (w : world) : status * world :=
  match interactive_setup g w with
  | (inr (agent, t), w') => while_true (interactive_turn agent t) inputs w'
  | (inl e, w') => (Escaped e, w')
  end.

(** The [ChatAgent(...)] expression of [run_demo_conversation]. *)
Definition demo_agent (g : globals) : M ChatAgent :=
  global "ChatAgent";;
  global "medium_client";;
  global "AGENT_INSTRUCTIONS";;
  global "HostedMCPTool";;
  global "USER_MCP_URL";;
  let user_service := HostedMCPTool "UserService" (USER_MCP_URL g) in
  global "HostedMCPTool";;
  global "WEATHER_MCP_URL";;
  let weather_service := HostedMCPTool "WeatherService" (WEATHER_MCP_URL g) in
  global "get_current_time_for_timezone";;
  global "get_timezone_for_city";;
  new_ChatAgent
    {| chat_client := medium_client g;
       agent_name := "TimeWeatherAgent";
       instructions := AGENT_INSTRUCTIONS;
       tools := [ user_service; weather_service;
                  FunctionTool "get_current_time_for_timezone";
                  FunctionTool "get_timezone_for_city" ] |}.

(** The body of the [for query in demo_queries] loop. *)
Definition demo_turn (agent : ChatAgent) (t : thread) (query : string)
  : M unit :=
  print (nl +:+ str_mul rule 50);;
  print ("User: " +:+ query);;
  try_except
    (do result_text <- run agent query t;
     print (nl +:+ "Agent: " +:+ result_text))
    None
    (fun e => print (nl +:+ "Error: " +:+ exc_str e));;
  sleep 1.

Definition run_demo_conversation (g : globals) : M unit :=
  print (nl +:+ str_mul "=" 60);;
  print "Time & Weather Agent - Demo Mode";;
  print (str_mul "=" 60);;
  print ("Running through the scenario's example queries..." +:+ nl);;
  do agent <- demo_agent g;
  do t <- new_thread agent;
  for_each demo_queries (demo_turn agent t);;
  print (nl +:+ str_mul "=" 60);;
  print "Demo complete!";;
  print (str_mul "=" 60).

Definition main (g : globals) (argv : list string)
    (inputs : list stdin_event) (w : world) : status * world :=
  if bool_decide (argv !! 1 = Some "--demo")
  then finish (run_demo_conversation g) w
  else run_interactive_conversation g inputs w.

(** Running the file as a script: the module body, then
    [asyncio.run(main())]. *)
Definition script (environ : gmap string string) (argv : list string)
    (inputs : list stdin_event) (w : world) : status * world :=
  match module_body environ w with
  | (inr g, w') => main g argv inputs w'
  | (inl e, w') => (Escaped e, w')
  end.

End WithFramework.
End Console.

(** ** [time_weather_agent_devui.py] *)

(** [pytz] and the clock. [pytz.timezone] raises UnknownTimeZoneError (a
    KeyError) for a name it does not know; [datetime.now] reads the clock
    in the given zone; [strftime] formats it. *)
Class TimeLib := {
  tzinfo : Type;
  datetime : Type;
  pytz_timezone : string -> py_exception + tzinfo;
  datetime_now : tzinfo -> datetime;
  strftime : datetime -> string -> string
}.

Module DevUI.
Import PyStr.

Record globals := {
  token : string;
  endpoint : string;
  async_openai_client : AsyncOpenAI;
  medium_client : OpenAIChatClient;
  USER_MCP_URL : string;
  WEATHER_MCP_URL : string
}.

(** The cities the instructions list as supported by the weather
    service, in the order of the text. *)
Definition supported_locations : list string :=
  ["Seattle"; "New York"; "London"; "Berlin"; "Tokyo"; "Sydney"].

Definition AGENT_INSTRUCTIONS : string :=
  "You are a helpful Time & Weather assistant." +:+ nl +:+
  nl +:+
  "## Capabilities:" +:+ nl +:+
  "1. **Remember Context**: Remember the user's location from our conversation." +:+ nl +:+
  "2. **Location Tracking**: When a user says " +:+ String (ascii_of_nat 34) "I am in [city]"
    +:+ String (ascii_of_nat 34) ", remember this as their current location." +:+ nl +:+
  "3. **Time Information**: Tell users the current time in their location." +:+ nl +:+
  "4. **Weather Information**: Provide weather for supported locations ("
    +:+ String.concat ", " supported_locations +:+ ")." +:+ nl +:+
  nl +:+
  "## Guidelines:" +:+ nl +:+
  "- When the user says " +:+ String (ascii_of_nat 34) "here" +:+ String (ascii_of_nat 34)
    " or " +:+ String (ascii_of_nat 34) "my location" +:+ String (ascii_of_nat 34)
    ", use the location they mentioned earlier." +:+ nl +:+
  "- If the user says they " +:+ String (ascii_of_nat 34) "moved" +:+ String (ascii_of_nat 34)
    ", update their current location." +:+ nl +:+
  "- If asked to recall their location, tell them where they said they are." +:+ nl +:+
  "- Be concise and friendly." +:+ nl.

Section LocalTime.
Context `{TimeLib}.

(** The whole body is inside [try: ... except Exception as e:], and the
    handler returns a string: the function returns on both paths. *)
Definition get_current_time_for_timezone (timezone_name : string) : string :=
  match pytz_timezone timezone_name with
  | inr timezone =>
      let now := datetime_now timezone in
      "The current time in " +:+ timezone_name +:+ " is "
        +:+ strftime now "%I:%M:%S %p" +:+ " on "
        +:+ strftime now "%A, %B %d, %Y" +:+ "."
  | inl e =>
      "Could not determine time for timezone '" +:+ timezone_name +:+ "': "
        +:+ exc_str e
  end.

End LocalTime.

(** [create_time_weather_agent] has no body that can be embedded: its
    source opens the tools list with a bracket and closes it with a
    parenthesis, so the text is not Python and the file as shipped does
    not compile. Nothing is assumed here about what a call does: the
    functions that call it take it as given, and whatever is proved of
    them holds for every choice. *)
Class AgentFactory (F : AgentFramework) := {
  create_time_weather_agent : globals -> M ChatAgent
}.

Section WithFramework.
Context {F : AgentFramework} `{OpenAIPackage} {A : AgentFactory F}.

(** The statements of the module from [load_dotenv()] down to the
    [def]s, as they are written. *)
Definition module_body (environ : gmap string string) : M globals :=
  do cfg <- client_configuration environ;
  let token := fst cfg in
  let endpoint := snd cfg in
  let async_openai_client := {| base_url := endpoint; api_key := token |} in
  let medium_model_name := environ !! "MEDIUM_DEPLOYMENT_MODEL_NAME" in
  do medium_client <-
    new_OpenAIChatClient medium_model_name token async_openai_client;
  ret {| token := token;
         endpoint := endpoint;
         async_openai_client := async_openai_client;
         medium_client := medium_client;
         USER_MCP_URL :=
           default "http://localhost:8002/sse" (environ !! "USER_MCP_URL");
         WEATHER_MCP_URL :=
           default "http://localhost:8003/sse" (environ !! "WEATHER_MCP_URL") |}.

(** The body of the [while True] loop of [main_console]. *)
Definition console_turn (agent : ChatAgent) (t : thread)
    (i : stdin_event) : M control :=
  try_except
    (do line <- input "You: " i;
     let user_input := strip line in
     if is_empty user_input then ret Continue
     else if bool_decide (lower user_input ∈ ["quit"; "exit"; "q"]) then
       print (nl +:+ "Goodbye!");;
       ret Break
     else
       do result_text <- run agent user_input t;
       print ("Agent: " +:+ result_text +:+ nl);;
       ret Continue)
    (Some (print (nl +:+ nl +:+ "Goodbye!");; ret Break))
    (fun e => print ("Error: " +:+ exc_str e +:+ nl);; ret Continue).

Definition console_setup (g : globals) : M (ChatAgent * thread) :=
  print (nl +:+ str_mul "=" 60);;
  print "Time & Weather Agent - Console Mode";;
  print (str_mul "=" 60);;
  print (nl +:+ "Type your messages below. Type 'quit' to exit." +:+ nl);;
  do agent <- create_time_weather_agent g;
  do t <- new_thread agent;
  ret (agent, t).

Definition main_console (g : globals) (inputs : list stdin_event)
    (w : world) : status * world :=
  match console_setup g w with
  | (inr (agent, t), w') => while_true (console_turn agent t) inputs w'
  | (inl e, w') => (Escaped e, w')
  end.

End WithFramework.
End DevUI.

(** ** The tool-calling loop of one turn *)
Module Orchestrator.

(** Modelled from the spec: the Conversation Orchestrator (the state
    machine AwaitingUserInput, Deciding, Dispatching, RepliedToUser with
    its loop bound). In the scripts it is what happens inside
    [agent.run], which belongs to the imported [agent_framework] package
    and has no source here. *)
Inductive ToolInvocationOutcome :=
| Success (value : string)
| Failure (kind message : string).

Record ToolCall := { tool_name : string; arguments : string; call_id : nat }.

Inductive Message :=
| UserUtterance (text : string)
| AssistantReply (text : string)
| ToolCallRequest (c : ToolCall)
| ToolCallResult (id : nat) (outcome : ToolInvocationOutcome).

Inductive OracleDecision :=
| FinalReply (text : string)
| ToolCalls (calls : list ToolCall).

(** The failures that are fatal to a turn. *)
Inductive TurnError :=
| OracleUnavailableError
| ConnectionError
| ToolLoopExceededError.

(** What a handler hands back: an outcome to append, or the loss of the
    connection to its capability provider. *)
Inductive Invocation :=
| Completed (outcome : ToolInvocationOutcome)
| Unreachable.

Record TurnReport := {
  result : TurnError + string;
  thread_after : list Message;
  round_trips : nat
}.

Section Loop.
(** The Completion Oracle Adapter on a thread snapshot ([None]: the
    backend is unavailable) and the Tool Registry's [resolve]. *)
Variable complete : list Message -> option OracleDecision.
Variable resolve : string -> option (string -> Invocation).
(** The configured maximum of Deciding-Dispatching round trips. *)
Variable max_round_trips : nat.

Definition invoke (c : ToolCall) : Invocation :=
  match resolve (tool_name c) with
  | Some handler => handler (arguments c)
  | None => Completed (Failure "UnknownToolError" (tool_name c))
  end.

(** Dispatching: run every pending call and append its result. *)
Fixpoint dispatching (calls : list ToolCall) (th : list Message)
  : option (list Message) :=
  match calls with
  | [] => Some th
  | c :: rest =>
      match invoke c with
      | Completed o => dispatching rest (th ++ [ToolCallResult (call_id c) o])
      | Unreachable => None
      end
  end.

(** Deciding, with [budget] round trips left and [done] already made. *)
Fixpoint deciding (budget done : nat) (th : list Message) : TurnReport :=
  match complete th with
  | None =>
      {| result := inl OracleUnavailableError; thread_after := th;
         round_trips := done |}
  | Some (FinalReply text) =>
      {| result := inr text; thread_after := th ++ [AssistantReply text];
         round_trips := done |}
  | Some (ToolCalls calls) =>
      match budget with
      | O =>
          {| result := inl ToolLoopExceededError; thread_after := th;
             round_trips := done |}
      | S budget' =>
          let requested := th ++ map ToolCallRequest calls in
          match dispatching calls requested with
          | Some th' => deciding budget' (S done) th'
          | None =>
              {| result := inl ConnectionError; thread_after := requested;
                 round_trips := done |}
          end
      end
  end.

Definition handle_turn (utterance : string) (th : list Message) : TurnReport :=
  deciding max_round_trips 0 (th ++ [UserUtterance utterance]).

End Loop.
End Orchestrator.

(** ** Small instances to run the definitions on *)
Module Samples.

(** A framework that keeps, per thread, the utterances it was given. The
    utterance ["boom"] fails the turn, ["stop"] interrupts it, anything
    else is echoed. *)
#[local] Instance echo_framework : AgentFramework := {|
  fw_state := list (list string);
  thread := nat;
  get_new_thread := fun _ s => (length s, s ++ [[]]);
  agent_run := fun _ u t s =>
    let s' := alter (fun log => log ++ [u]) t s in
    if bool_decide (u = "boom")
    then (inl (Exc {| exc_class := "RuntimeError"; exc_str := "backend down" |}), s')
    else if bool_decide (u = "stop")
    then (inl KeyboardInterrupt, s')
    else (inr ("echo: " +:+ u), s')
|}.

Definition start : world := {| fw := []; trace := [] |}.

Definition github_env : gmap string string :=
  {[ "GITHUB_TOKEN" := "ghp_x" ]}.

Definition both_env : gmap string string :=
  <[ "AZURE_OPENAI_API_KEY" := "az_key" ]>
    (<[ "AZURE_OPENAI_ENDPOINT" := "https://az.example" ]> github_env).

Definition azure_env : gmap string string :=
  <[ "AZURE_OPENAI_API_KEY" := "az_key" ]>
    {[ "AZURE_OPENAI_ENDPOINT" := "https://az.example" ]}.

(** Module globals to run the drivers on. *)
Definition console_globals : Console.globals :=
  let client := {| base_url := "https://models.github.ai/inference";
                   api_key := "ghp_x" |} in
  let chat := {| model_id := None; client_api_key := "ghp_x";
                 async_client := client |} in
  {| Console.token := "ghp_x";
     Console.endpoint := "https://models.github.ai/inference";
     Console.async_openai_client := client;
     Console.completion_client := chat;
     Console.medium_client := chat;
     Console.small_client := chat;
     Console.USER_MCP_URL := "http://localhost:8002/mcp";
     Console.WEATHER_MCP_URL := "http://localhost:8003/mcp" |}.

Definition devui_globals : DevUI.globals :=
  let client := {| base_url := "https://models.github.ai/inference";
                   api_key := "ghp_x" |} in
  {| DevUI.token := "ghp_x";
     DevUI.endpoint := "https://models.github.ai/inference";
     DevUI.async_openai_client := client;
     DevUI.medium_client := {| model_id := None; client_api_key := "ghp_x";
                               async_client := client |};
     DevUI.USER_MCP_URL := "http://localhost:8002/sse";
     DevUI.WEATHER_MCP_URL := "http://localhost:8003/sse" |}.

(** A clock that knows one zone. *)
#[local] Instance utc_only : TimeLib := {|
  tzinfo := unit;
  datetime := unit;
  pytz_timezone := fun name =>
    if bool_decide (name = "UTC") then inr tt
    else inl {| exc_class := "UnknownTimeZoneError";
                exc_str := "'" +:+ name +:+ "'" |};
  datetime_now := fun _ => tt;
  strftime := fun _ fmt => fmt
|}.

(** An oracle that asks for the same lookup on every decision, and a
    registry with that one tool. *)
Definition lookup_call : Orchestrator.ToolCall :=
  {| Orchestrator.tool_name := "get_timezone_for_city";
     Orchestrator.arguments := "London";
     Orchestrator.call_id := 0 |}.

Definition looping_oracle (th : list Orchestrator.Message)
  : option Orchestrator.OracleDecision :=
  Some (Orchestrator.ToolCalls [lookup_call]).

Definition one_tool_registry (name : string)
  : option (string -> Orchestrator.Invocation) :=
  if bool_decide (name = "get_timezone_for_city")
  then Some (fun city =>
               Orchestrator.Completed
                 (Orchestrator.Success (LocalTools.get_timezone_for_city city)))
  else None.

End Samples.

(** ** The entry points of [time_weather_agent_devui.py] *)

(** How [from agent_framework.devui import serve] ends: the name is
    bound, the import raises ImportError (or a subclass of it), or it
    raises something else. *)
Inductive import_outcome :=
| Imported
| ImportFails (e : py_exception)
| ImportRaises (e : exn).

(** The [agent_framework.devui] package: whether it can be imported, and
    [serve], which blocks until the server stops or fails. *)
Class DevUIPackage (F : AgentFramework) := {
  import_serve : import_outcome;
  devui_serve : list ChatAgent -> N -> bool -> fw_state ->
                (exn + unit) * fw_state
}.

Module DevUIEntry.
Import DevUI.

Section WithPackage.
Context {F : AgentFramework} {P : DevUIPackage F} {A : AgentFactory F}.

(** [serve(entities=..., port=..., auto_open=...)]. *)
Definition serve (entities : list ChatAgent) (port : N) (auto_open : bool)
  : M unit :=
  fun w => let (r, s) := devui_serve entities port auto_open (fw w) in
           (r, {| fw := s; trace := trace w |}).

Definition main_with_devui (g : globals) : M unit :=
  match import_serve with
  | ImportFails e =>
      print (str_mul "=" 60);;
      print "Dev UI import failed!";;
      print ("Import error details: " +:+ exc_str e);;
      print (str_mul "=" 60);;
      print (nl +:+ "Install it with: pip install agent-framework-devui --pre");;
      print (str_mul "=" 60);;
      ret tt
  | ImportRaises e => raise e
  | Imported =>
      print (nl +:+ str_mul "=" 60);;
      print "Time & Weather Agent - Dev UI Mode";;
      print (str_mul "=" 60);;
      do agent <- create_time_weather_agent g;
      print (nl +:+ "Starting Dev UI...");;
      print "Open the URL shown below in your browser to interact with the agent.";;
      print "The Dev UI lets you see all tool calls, message flow, and metrics.";;
      print (str_mul "=" 60 +:+ nl);;
      serve [agent] 8093%N true
  end.

Definition main (g : globals) (argv : list string)
    (inputs : list stdin_event) (w : world) : status * world :=
  if bool_decide (argv !! 1 = Some "--console")
  then main_console g inputs w
  else
    match main_with_devui g w with
    | (inr _, w') => (Returned, w')
    | (inl (Exc e), w') =>
        match (print ("Dev UI failed: " +:+ exc_str e);;
               print "Falling back to console mode...") w' with
        | (inr _, w'') => main_console g inputs w''
        | (inl e', w'') => (Escaped e', w'')
        end
    | (inl other, w') => (Escaped other, w')
    end.

End WithPackage.
End DevUIEntry.

(** ** More ways to read a trace *)
Section MoreObservations.
Context `{AgentFramework}.

(** The pauses taken with [asyncio.sleep], oldest first. *)
Definition naps (tr : list event) : list nat :=
  omap (fun e => match e with EvSleep n => Some n | _ => None end) tr.

(** The agents built with [ChatAgent(...)], oldest first. *)
Definition agents_built (tr : list event) : list ChatAgent :=
  omap (fun e => match e with EvChatAgent a => Some a | _ => None end) tr.

(** The prompts shown by [input()], oldest first. *)
Definition reads (tr : list event) : list string :=
  omap (fun e => match e with EvInput p => Some p | _ => None end) tr.

End MoreObservations.

(** More instances to run the definitions on. *)
Module MoreSamples.

(** The Dev UI package is not installed. *)
#[local] Instance devui_missing : DevUIPackage Samples.echo_framework := {|
  import_serve :=
    ImportFails {| exc_class := "ModuleNotFoundError";
                   exc_str := "No module named 'agent_framework.devui'" |};
  devui_serve := fun _ _ _ s => (inr tt, s)
|}.

(** A stand-in for the function the devui file fails to define. *)
#[local] Instance no_factory : DevUI.AgentFactory Samples.echo_framework := {|
  DevUI.create_time_weather_agent := fun _ =>
    raise (Exc {| exc_class := "NameError";
                  exc_str := "name 'create_time_weather_agent' is not defined" |})
|}.

(** A chat client constructor that insists on a model name. *)
#[local] Instance strict_openai : OpenAIPackage := {|
  chat_client_init := fun model _ _ =>
    match model with
    | Some _ => None
    | None =>
        Some (Exc {| exc_class := "ServiceInitializationError";
                     exc_str := "OpenAI model ID is required." |})
    end
|}.

(** The three model names, to add to an environment. *)
Definition with_models (environ : gmap string string) : gmap string string :=
  <[ "COMPLETION_DEPLOYMENT_NAME" := "gpt-4o" ]>
    (<[ "MEDIUM_DEPLOYMENT_MODEL_NAME" := "gpt-4o-mini" ]>
       (<[ "SMALL_DEPLOYMENT_MODEL_NAME" := "gpt-4o-mini" ]> environ)).

Definition eof : exn :=
  Exc {| exc_class := "EOFError"; exc_str := "EOF when reading a line" |}.

(** An Azure key and nothing else. *)
Definition azure_key_only : gmap string string :=
  {[ "AZURE_OPENAI_API_KEY" := "az_key" ]}.

(** A GitHub token and the medium model name only. *)
Definition medium_only_env : gmap string string :=
  <[ "MEDIUM_DEPLOYMENT_MODEL_NAME" := "gpt-4o-mini" ]> Samples.github_env.

(** An agent without tools. *)
Definition bare_agent : ChatAgent :=
  {| chat_client := Console.medium_client Samples.console_globals;
     agent_name := "TimeWeatherAgent";
     instructions := Console.AGENT_INSTRUCTIONS;
     tools := [] |}.

End MoreSamples.

(** * Properties *)

(** ** Strings *)
Module PyStrFacts.
Import PyStr.

Lemma lower_app (a b : string) : lower (a +:+ b) = lower a +:+ lower b.
Proof. induction a as [|c a IH]; simpl; [reflexivity | now rewrite IH]. Qed.

Lemma isspace_lower_char (c : ascii) : isspace (lower_char c) = isspace c.
Proof. destruct c as [[] [] [] [] [] [] [] []]; reflexivity. Qed.

Lemma all_space_lower (s : string) : all_space (lower s) = all_space s.
Proof.
  induction s as [|c s IH]; simpl; [reflexivity|].
  now rewrite isspace_lower_char, IH.
Qed.

Lemma lstrip_all_space (pad s : string) :
  all_space pad = true -> lstrip (pad +:+ s) = lstrip s.
Proof.
  induction pad as [|c pad IH]; simpl; [reflexivity|].
  intros [Hc Hpad]%andb_true_iff. rewrite Hc. auto.
Qed.

Lemma lstrip_all_space_nil (pad : string) :
  all_space pad = true -> lstrip pad = EmptyString.
Proof.
  induction pad as [|c pad IH]; simpl; [reflexivity|].
  intros [Hc Hpad]%andb_true_iff. now rewrite Hc, IH.
Qed.

Lemma rstrip_all_space_nil (pad : string) :
  all_space pad = true -> rstrip pad = EmptyString.
Proof.
  induction pad as [|c pad IH]; simpl; [reflexivity|].
  intros [Hc Hpad]%andb_true_iff. now rewrite IH, Hc.
Qed.

Lemma rstrip_all_space (s pad : string) :
  all_space pad = true -> rstrip (s +:+ pad) = rstrip s.
Proof.
  intros Hpad. induction s as [|c s IH]; simpl.
  - now apply rstrip_all_space_nil.
  - now rewrite IH.
Qed.

Lemma strip_padding (l s r : string) :
  all_space l = true -> all_space r = true ->
  strip (l +:+ s +:+ r) = strip s.
Proof.
  intros Hl Hr. unfold strip. rewrite lstrip_all_space by assumption.
  induction s as [|c s IH]; simpl.
  - now rewrite lstrip_all_space_nil.
  - destruct (isspace c); [exact IH|].
    change (String c (s +:+ r)) with (String c s +:+ r).
    now rewrite rstrip_all_space.
Qed.

Lemma append_inv_head (p a b : string) : p +:+ a = p +:+ b -> a = b.
Proof. induction p as [|c p IH]; simpl; [auto|]. intros [= E]. auto. Qed.

Lemma append_inv_dot (a b : string) : a +:+ "." = b +:+ "." -> a = b.
Proof.
  revert b. induction a as [|c a IH]; intros [|d b]; simpl; intros E.
  - reflexivity.
  - destruct b; simpl in E; discriminate.
  - destruct a; simpl in E; discriminate.
  - injection E as -> E. f_equal. auto.
Qed.

End PyStrFacts.

(** ** The local tools *)
Module LocalToolsFacts.
Import PyStr PyStrFacts LocalTools.

Ltac case_key key name :=
  destruct (decide (key = name)) as [->|?];
  [ split; intros _; [repeat constructor | vm_compute; eauto] |].

Lemma city_timezones_keys (key : string) :
  is_Some (city_timezones !! key) <->
  key ∈ ["london"; "berlin"; "new york"; "tokyo"; "sydney"; "seattle"; "paris"].
Proof.
  case_key key "london". case_key key "berlin". case_key key "new york".
  case_key key "tokyo". case_key key "sydney". case_key key "seattle".
  case_key key "paris".
  unfold city_timezones. cbn [list_to_map foldr uncurry fst snd].
  rewrite !lookup_insert_ne, lookup_empty by done.
  split; [intros [? [=]] |].
  intros Hk. repeat (apply elem_of_cons in Hk as [?|Hk]; [congruence|]).
  now apply elem_of_nil in Hk.
Qed.

Lemma get_timezone_for_city_found (city tz : string) :
  city_timezones !! strip (lower city) = Some tz ->
  get_timezone_for_city city = "The timezone for " +:+ city +:+ " is " +:+ tz +:+ ".".
Proof. intros E. unfold get_timezone_for_city. now rewrite E. Qed.

Lemma get_timezone_for_city_missing (city : string) :
  city_timezones !! strip (lower city) = None ->
  get_timezone_for_city city = "Unknown city '" +:+ city +:+ "'. Try a major city name.".
Proof. intros E. unfold get_timezone_for_city. now rewrite E. Qed.

Lemma success_is_not_unknown (city city' tz : string) :
  "The timezone for " +:+ city +:+ " is " +:+ tz +:+ "."
  <> "Unknown city '" +:+ city' +:+ "'. Try a major city name.".
Proof. simpl. discriminate. Qed.

Lemma success_names_one_timezone (city tz tz' : string) :
  "The timezone for " +:+ city +:+ " is " +:+ tz +:+ "."
  = "The timezone for " +:+ city +:+ " is " +:+ tz' +:+ "." -> tz = tz'.
Proof.
  intros E%append_inv_head%append_inv_head%append_inv_head.
  now apply append_inv_dot.
Qed.

Lemma returns_timezone_iff (city tz : string) :
  city_timezones !! strip (lower city) = Some tz <->
  get_timezone_for_city city = "The timezone for " +:+ city +:+ " is " +:+ tz +:+ ".".
Proof.
  split; [apply get_timezone_for_city_found|].
  destruct (city_timezones !! strip (lower city)) as [tz'|] eqn:E.
  - rewrite (get_timezone_for_city_found _ _ E).
    now intros ->%success_names_one_timezone.
  - rewrite (get_timezone_for_city_missing _ E). intros E'.
    symmetry in E'. now apply success_is_not_unknown in E'.
Qed.

Lemma returns_unknown_iff (city : string) :
  city_timezones !! strip (lower city) = None <->
  get_timezone_for_city city = "Unknown city '" +:+ city +:+ "'. Try a major city name.".
Proof.
  split; [apply get_timezone_for_city_missing|].
  destruct (city_timezones !! strip (lower city)) as [tz'|] eqn:E; [|reflexivity].
  rewrite (get_timezone_for_city_found _ _ E). intros E'.
  now apply success_is_not_unknown in E'.
Qed.

(** C7. [get_timezone_for_city] is a function of its argument alone, and
    which of its two messages it returns is decided by
    [city.lower().strip()]: it returns the success message naming the
    timezone the table maps that name to exactly when the name is one of
    london, berlin, new york, tokyo, sydney, seattle, paris, and the
    Unknown city message exactly when it is not. Two arguments with the
    same normalised name get the same kind of message with the same
    timezone; upper case and surrounding whitespace do not change the
    normalised name. (Both messages quote the argument as it was given.) *)
Theorem get_timezone_for_city_by_normalized_name (city : string) :
  let key := strip (lower city) in
  let names := ["london"; "berlin"; "new york"; "tokyo"; "sydney"; "seattle"; "paris"] in
  (key ∈ names <->
   exists tz, city_timezones !! key = Some tz /\
     get_timezone_for_city city
     = "The timezone for " +:+ city +:+ " is " +:+ tz +:+ ".")
  /\ (forall tz,
        get_timezone_for_city city
        = "The timezone for " +:+ city +:+ " is " +:+ tz +:+ "." <->
        city_timezones !! key = Some tz)
  /\ (key ∉ names <->
      get_timezone_for_city city
      = "Unknown city '" +:+ city +:+ "'. Try a major city name.")
  /\ (forall other, strip (lower other) = key ->
        (forall tz,
           get_timezone_for_city other
           = "The timezone for " +:+ other +:+ " is " +:+ tz +:+ "." <->
           get_timezone_for_city city
           = "The timezone for " +:+ city +:+ " is " +:+ tz +:+ ".")
        /\ (get_timezone_for_city other
            = "Unknown city '" +:+ other +:+ "'. Try a major city name." <->
            get_timezone_for_city city
            = "Unknown city '" +:+ city +:+ "'. Try a major city name."))
  /\ (forall pad_l pad_r variant,
        all_space pad_l = true -> all_space pad_r = true ->
        lower variant = lower city ->
        strip (lower (pad_l +:+ variant +:+ pad_r)) = key).
Proof.
  intros key names. split; [|split; [|split; [|split]]].
  - split.
    + intros [tz E]%city_timezones_keys. exists tz. split; [exact E|].
      now apply returns_timezone_iff.
    + intros (tz & E & _). apply city_timezones_keys. now exists tz.
  - intros tz. symmetry. apply returns_timezone_iff.
  - split.
    + intros Hk. apply returns_unknown_iff. apply eq_None_not_Some.
      now rewrite city_timezones_keys.
    + intros E%returns_unknown_iff Hk%city_timezones_keys.
      fold key in E. rewrite E in Hk. now destruct Hk.
  - intros other E. split; [intros tz|].
    + rewrite <- !returns_timezone_iff. now rewrite E.
    + rewrite <- !returns_unknown_iff. now rewrite E.
  - intros pad_l pad_r variant Hl Hr Hv. rewrite !lower_app, Hv.
    apply strip_padding; now rewrite all_space_lower.
Qed.

(** The theorem at ["  LoNdon "] against ["london"]. *)
Lemma get_timezone_for_city_by_normalized_name_witness :
  get_timezone_for_city "  LoNdon "
  = "The timezone for   LoNdon  is Europe/London."
  /\ strip (lower ("  " +:+ "LoNdon" +:+ " ")) = strip (lower "london").
Proof.
  pose proof (get_timezone_for_city_by_normalized_name "london")
    as (_ & _ & _ & Hsame & Hpad).
  split.
  - apply (proj1 (Hsame "  LoNdon " eq_refl) "Europe/London"). reflexivity.
  - apply Hpad; reflexivity.
Defined.

(** C10. Each of the six cities the instructions name as supported by
    the weather service (Seattle, New York, London, Berlin, Tokyo,
    Sydney) is in the table of [get_timezone_for_city]: the lookup
    returns the success message for it, never the Unknown city one. *)
Theorem supported_locations_have_timezones :
  map get_timezone_for_city DevUI.supported_locations
  = [ "The timezone for Seattle is America/Los_Angeles.";
      "The timezone for New York is America/New_York.";
      "The timezone for London is Europe/London.";
      "The timezone for Berlin is Europe/Berlin.";
      "The timezone for Tokyo is Asia/Tokyo.";
      "The timezone for Sydney is Australia/Sydney." ]
  /\ Forall (fun city =>
               get_timezone_for_city city
               <> "Unknown city '" +:+ city +:+ "'. Try a major city name.")
            DevUI.supported_locations.
Proof.
  split; [vm_compute; reflexivity|].
  repeat constructor; vm_compute; discriminate.
Qed.

Section Clock.
Context `{TimeLib}.

(** C6. For every timezone name [get_current_time_for_timezone] returns
    a string that is not empty: when [pytz] knows the name, the message
    with the name and the formatted current time; when [pytz] raises, the
    message that starts with Could not determine time for timezone and
    carries the name and the text of the error. *)
Theorem get_current_time_for_timezone_never_empty (timezone_name : string) :
  DevUI.get_current_time_for_timezone timezone_name <> EmptyString
  /\ (forall tz, pytz_timezone timezone_name = inr tz ->
        DevUI.get_current_time_for_timezone timezone_name
        = "The current time in " +:+ timezone_name +:+ " is "
            +:+ strftime (datetime_now tz) "%I:%M:%S %p" +:+ " on "
            +:+ strftime (datetime_now tz) "%A, %B %d, %Y" +:+ ".")
  /\ (forall e, pytz_timezone timezone_name = inl e ->
        DevUI.get_current_time_for_timezone timezone_name
        = "Could not determine time for timezone '" +:+ timezone_name +:+ "': "
            +:+ exc_str e).
Proof.
  unfold DevUI.get_current_time_for_timezone.
  destruct (pytz_timezone timezone_name) as [e|tz]; repeat split;
    try discriminate; try (intros ? [= <-]; reflexivity).
Qed.

End Clock.

(** The theorem on a clock that knows UTC only. *)
Lemma get_current_time_for_timezone_never_empty_witness :
  @DevUI.get_current_time_for_timezone Samples.utc_only "UTC"
  = "The current time in UTC is %I:%M:%S %p on %A, %B %d, %Y."
  /\ @DevUI.get_current_time_for_timezone Samples.utc_only "Mars/Base"
     = "Could not determine time for timezone 'Mars/Base': 'Mars/Base'".
Proof.
  split.
  - apply (proj1 (proj2 (@get_current_time_for_timezone_never_empty
                           Samples.utc_only "UTC")) tt).
    reflexivity.
  - apply (proj2 (proj2 (@get_current_time_for_timezone_never_empty
                           Samples.utc_only "Mars/Base"))
             {| exc_class := "UnknownTimeZoneError"; exc_str := "'Mars/Base'" |}).
    reflexivity.
Defined.

End LocalToolsFacts.

(** ** The harness monad and the loops *)
Section HarnessFacts.
Context `{AgentFramework}.
Import PyStr.

Lemma while_true_app (body : stdin_event -> M control)
    (pre more : list stdin_event) (w : world) :
  while_true body (pre ++ more) w =
  match while_true body pre w with
  | (AwaitingInput, w1) => while_true body more w1
  | r => r
  end.
Proof.
  revert w. induction pre as [|i pre IH]; intros w; simpl; [reflexivity|].
  destruct (body i w) as [[e|[]] w']; try reflexivity. apply IH.
Qed.

Lemma while_true_trace (P : event -> Prop) (body : stdin_event -> M control) :
  (forall i w, exists evs,
      trace (snd (body i w)) = trace w ++ evs /\ Forall P evs) ->
  forall inputs w, exists evs,
    trace (snd (while_true body inputs w)) = trace w ++ evs /\ Forall P evs.
Proof.
  intros Hbody inputs. induction inputs as [|i inputs IH]; intros w; simpl.
  - exists []. now rewrite app_nil_r.
  - destruct (Hbody i w) as (evs & E & Hevs).
    destruct (body i w) as [[e|[]] w']; simpl in E.
    + now exists evs.
    + destruct (IH w') as (evs' & E' & Hevs').
      exists (evs ++ evs'). rewrite E', E, app_assoc.
      split; [reflexivity | now apply Forall_app].
    + now exists evs.
Qed.

Lemma sentinel_not_blank (user_input : string) :
  lower user_input ∈ ["quit"; "exit"; "q"] -> is_empty user_input = false.
Proof.
  destruct user_input; [|reflexivity]. simpl.
  intros Hin. repeat (apply elem_of_cons in Hin as [?|Hin]; [discriminate|]).
  now apply elem_of_nil in Hin.
Qed.

Lemma is_empty_false (s : string) : s <> EmptyString -> is_empty s = false.
Proof. now destruct s. Qed.

End HarnessFacts.

(** ** [time_weather_agent.py]: the interactive driver *)
Module ConsoleFacts.
Import PyStr Console.

Section InteractiveDriver.
Context `{AgentFramework}.

Ltac run_turn :=
  unfold interactive_turn, try_except, bind, input, run, print, ret, emit;
  cbn [fw trace fst snd].

Lemma turn_blank agent t line w :
  strip line = EmptyString ->
  interactive_turn agent t (Line line) w
  = (inr Continue, emit (EvInput (nl +:+ "You 2: ")) w).
Proof. intros E. run_turn. now rewrite E. Qed.

Lemma turn_exit agent t line w :
  lower (strip line) ∈ ["quit"; "exit"; "q"] ->
  interactive_turn agent t (Line line) w
  = (inr Break,
     {| fw := fw w;
        trace := trace w ++ [EvInput (nl +:+ "You 2: ");
                             EvPrint (nl +:+ "Goodbye! Have a great day!")] |}).
Proof.
  intros Hq. run_turn. rewrite (sentinel_not_blank _ Hq).
  rewrite bool_decide_eq_true_2 by exact Hq.
  cbn [fw trace]. now rewrite <- app_assoc.
Qed.

Lemma turn_utterance agent t line w :
  is_utterance line ->
  interactive_turn agent t (Line line) w
  = let ran := agent_run agent (strip line) t (fw w) in
    let tr := trace w ++ [EvInput (nl +:+ "You 2: ");
                          EvRun agent (strip line) t] in
    match fst ran with
    | inr text =>
        (inr Continue,
         {| fw := snd ran;
            trace := tr ++ [EvPrint (nl +:+ "Agent: " +:+ text)] |})
    | inl (Exc e) =>
        (inr Continue,
         {| fw := snd ran;
            trace := tr ++ [EvPrint (nl +:+ "Error: " +:+ exc_str e);
                            EvPrint "Please try again or type 'quit' to exit."] |})
    | inl KeyboardInterrupt =>
        (inr Break,
         {| fw := snd ran;
            trace := tr ++ [EvPrint (nl +:+ nl +:+ "Conversation interrupted. Goodbye!")] |})
    | inl (BaseExc c m) => (inl (BaseExc c m), {| fw := snd ran; trace := tr |})
    end.
Proof.
  intros [Hne Hnq]. run_turn. rewrite (is_empty_false _ Hne).
  rewrite bool_decide_eq_false_2 by exact Hnq. cbn [fw trace fst snd].
  destruct (agent_run agent (strip line) t (fw w)) as [[[e| |c m]|text] s];
    cbn [fw trace fst snd]; rewrite <- ?app_assoc; reflexivity.
Qed.

Lemma turn_input_raises agent t e w :
  interactive_turn agent t (InputRaises e) w
  = let tr := trace w ++ [EvInput (nl +:+ "You 2: ")] in
    match e with
    | Exc e =>
        (inr Continue,
         {| fw := fw w;
            trace := tr ++ [EvPrint (nl +:+ "Error: " +:+ exc_str e);
                            EvPrint "Please try again or type 'quit' to exit."] |})
    | KeyboardInterrupt =>
        (inr Break,
         {| fw := fw w;
            trace := tr ++ [EvPrint (nl +:+ nl +:+ "Conversation interrupted. Goodbye!")] |})
    | BaseExc c m => (inl (BaseExc c m), {| fw := fw w; trace := tr |})
    end.
Proof.
  run_turn. destruct e as [e| |c m]; cbn [fw trace];
    rewrite <- ?app_assoc; reflexivity.
Qed.

Lemma line_cases (line : string) :
  strip line = EmptyString \/
  lower (strip line) ∈ ["quit"; "exit"; "q"] \/
  is_utterance line.
Proof.
  destruct (decide (strip line = EmptyString)); [now left|].
  destruct (decide (lower (strip line) ∈ ["quit"; "exit"; "q"]));
    [now right; left | now right; right].
Qed.

Lemma turn_events agent t i w :
  exists evs,
    trace (snd (interactive_turn agent t i w)) = trace w ++ evs
    /\ Forall (turn_event agent t) evs.
Proof.
  destruct i as [line|e].
  - destruct (line_cases line) as [Hb|[Hq|Hu]].
    + rewrite (turn_blank _ _ _ _ Hb). eexists. split; [reflexivity|].
      repeat constructor.
    + rewrite (turn_exit _ _ _ _ Hq). eexists. split; [reflexivity|].
      repeat constructor.
    + rewrite (turn_utterance _ _ _ _ Hu). cbv zeta.
      destruct (fst (agent_run agent (strip line) t (fw w))) as [[e| |c m]|text];
        cbn [snd trace]; rewrite <- ?app_assoc;
        (eexists; split; [reflexivity|]); repeat constructor.
  - rewrite turn_input_raises. cbv zeta.
    destruct e as [e| |c m]; cbn [snd trace]; rewrite <- ?app_assoc;
      (eexists; split; [reflexivity|]); repeat constructor.
Qed.

Lemma global_bound name :
  bool_decide (name ∈ bound_names) = true -> global name = ret tt.
Proof. intros E. unfold global, load_global. now rewrite E. Qed.

Lemma interactive_banner_prints w :
  exists evs,
    interactive_banner w = (inr tt, {| fw := fw w; trace := trace w ++ evs |})
    /\ Forall is_print evs.
Proof.
  unfold interactive_banner, bind, print, emit. cbn [fw trace].
  rewrite <- !app_assoc. cbn [app].
  eexists. split; [reflexivity|]. repeat constructor.
Qed.

Lemma interactive_agent_built g :
  exists agent, interactive_agent g = new_ChatAgent agent.
Proof.
  unfold interactive_agent.
  rewrite !global_bound by (vm_compute; reflexivity).
  eexists. reflexivity.
Qed.

(** The set-up always gets through: every name it reads is bound. *)
Lemma interactive_setup_ok g w :
  exists agent t banner,
    interactive_setup g w
    = (inr (agent, t),
       {| fw := snd (get_new_thread agent (fw w));
          trace := trace w ++ banner ++ [EvChatAgent agent; EvNewThread agent t] |})
    /\ t = fst (get_new_thread agent (fw w))
    /\ Forall is_print banner.
Proof.
  destruct (interactive_banner_prints w) as (banner & Eb & Hb).
  destruct (interactive_agent_built g) as (agent & Ea).
  exists agent, (fst (get_new_thread agent (fw w))), banner.
  split; [|split; [reflexivity | exact Hb]].
  unfold interactive_setup, bind at 1. rewrite Eb.
  unfold bind at 1. rewrite Ea.
  unfold new_ChatAgent, bind, new_thread, ret, emit. cbn [fw trace].
  destruct (get_new_thread agent (fw w)) as [t s]. cbn [fst snd fw trace].
  now rewrite <- !app_assoc.
Qed.

Lemma run_interactive_conversation_loop g inputs w agent t w0 :
  interactive_setup g w = (inr (agent, t), w0) ->
  run_interactive_conversation g inputs w
  = while_true (interactive_turn agent t) inputs w0.
Proof. intros E. unfold run_interactive_conversation. now rewrite E. Qed.

Lemma run_interactive_conversation_more g pre more w w1 agent t w0 :
  interactive_setup g w = (inr (agent, t), w0) ->
  run_interactive_conversation g pre w = (AwaitingInput, w1) ->
  run_interactive_conversation g (pre ++ more) w
  = while_true (interactive_turn agent t) more w1.
Proof.
  intros Es Ep. rewrite (run_interactive_conversation_loop g pre _ _ _ _ Es) in Ep.
  rewrite (run_interactive_conversation_loop g (pre ++ more) _ _ _ _ Es).
  now rewrite while_true_app, Ep.
Qed.

End InteractiveDriver.
End ConsoleFacts.

(** ** [time_weather_agent_devui.py]: the body of the console loop *)
Module DevUIFacts.
Import PyStr DevUI.

Section ConsoleDriver.
Context `{AgentFramework}.

Ltac run_console_turn :=
  unfold console_turn, try_except, bind, input, run, print, ret, emit;
  cbn [fw trace fst snd].

Lemma console_turn_blank agent t line w :
  strip line = EmptyString ->
  console_turn agent t (Line line) w = (inr Continue, emit (EvInput "You: ") w).
Proof. intros E. run_console_turn. now rewrite E. Qed.

Lemma console_turn_exit agent t line w :
  lower (strip line) ∈ ["quit"; "exit"; "q"] ->
  console_turn agent t (Line line) w
  = (inr Break,
     {| fw := fw w;
        trace := trace w ++ [EvInput "You: "; EvPrint (nl +:+ "Goodbye!")] |}).
Proof.
  intros Hq. run_console_turn. rewrite (sentinel_not_blank _ Hq).
  rewrite bool_decide_eq_true_2 by exact Hq.
  cbn [fw trace]. now rewrite <- app_assoc.
Qed.

Lemma console_turn_utterance agent t line w :
  is_utterance line ->
  console_turn agent t (Line line) w
  = let ran := agent_run agent (strip line) t (fw w) in
    let tr := trace w ++ [EvInput "You: "; EvRun agent (strip line) t] in
    match fst ran with
    | inr text =>
        (inr Continue,
         {| fw := snd ran;
            trace := tr ++ [EvPrint ("Agent: " +:+ text +:+ nl)] |})
    | inl (Exc e) =>
        (inr Continue,
         {| fw := snd ran;
            trace := tr ++ [EvPrint ("Error: " +:+ exc_str e +:+ nl)] |})
    | inl KeyboardInterrupt =>
        (inr Break,
         {| fw := snd ran;
            trace := tr ++ [EvPrint (nl +:+ nl +:+ "Goodbye!")] |})
    | inl (BaseExc c m) => (inl (BaseExc c m), {| fw := snd ran; trace := tr |})
    end.
Proof.
  intros [Hne Hnq]. run_console_turn. rewrite (is_empty_false _ Hne).
  rewrite bool_decide_eq_false_2 by exact Hnq. cbn [fw trace fst snd].
  destruct (agent_run agent (strip line) t (fw w)) as [[[e| |c m]|text] s];
    cbn [fw trace fst snd]; rewrite <- ?app_assoc; reflexivity.
Qed.

Lemma console_turn_input_raises agent t e w :
  console_turn agent t (InputRaises e) w
  = let tr := trace w ++ [EvInput "You: "] in
    match e with
    | Exc e =>
        (inr Continue,
         {| fw := fw w;
            trace := tr ++ [EvPrint ("Error: " +:+ exc_str e +:+ nl)] |})
    | KeyboardInterrupt =>
        (inr Break,
         {| fw := fw w; trace := tr ++ [EvPrint (nl +:+ nl +:+ "Goodbye!")] |})
    | BaseExc c m => (inl (BaseExc c m), {| fw := fw w; trace := tr |})
    end.
Proof.
  run_console_turn. destruct e as [e| |c m]; cbn [fw trace];
    rewrite <- ?app_assoc; reflexivity.
Qed.

Lemma console_turn_events agent t i w :
  exists evs,
    trace (snd (console_turn agent t i w)) = trace w ++ evs
    /\ Forall (turn_event agent t) evs.
Proof.
  destruct i as [line|e].
  - destruct (ConsoleFacts.line_cases line) as [Hb|[Hq|Hu]].
    + rewrite (console_turn_blank _ _ _ _ Hb). eexists. split; [reflexivity|].
      repeat constructor.
    + rewrite (console_turn_exit _ _ _ _ Hq). eexists. split; [reflexivity|].
      repeat constructor.
    + rewrite (console_turn_utterance _ _ _ _ Hu). cbv zeta.
      destruct (fst (agent_run agent (strip line) t (fw w))) as [[e| |c m]|text];
        cbn [snd trace]; rewrite <- ?app_assoc;
        (eexists; split; [reflexivity|]); repeat constructor.
  - rewrite console_turn_input_raises. cbv zeta.
    destruct e as [e| |c m]; cbn [snd trace]; rewrite <- ?app_assoc;
      (eexists; split; [reflexivity|]); repeat constructor.
Qed.

End ConsoleDriver.
End DevUIFacts.

(** ** The drivers *)
Module DriverFacts.
Import PyStr.

Section Drivers.
Context `{AgentFramework} `{OpenAIPackage}.

(** C2. The scripted driver is meant to build its agent and send each
    query through [agent.run] on one thread, as the interactive driver
    does. It does not get that far: its tools list reads
    [get_current_time_for_timezone], a name the module never binds, so
    the function raises NameError after the four banner lines, before any
    agent or thread exists and before any query is sent; the set-up of
    the interactive driver, on the same globals, returns its agent and
    thread. *)
Theorem run_demo_conversation_raises_NameError (g : Console.globals) (w : world) :
  Console.run_demo_conversation g w
  = (inl (NameError "get_current_time_for_timezone"),
     {| fw := fw w;
        trace := trace w ++
          [ EvPrint (nl +:+ str_mul "=" 60);
            EvPrint "Time & Weather Agent - Demo Mode";
            EvPrint (str_mul "=" 60);
            EvPrint ("Running through the scenario's example queries..." +:+ nl) ] |})
  /\ (forall argv inputs,
        argv !! 1 = Some "--demo" ->
        fst (Console.main g argv inputs w)
        = Escaped (NameError "get_current_time_for_timezone")
        /\ runs (trace (snd (Console.main g argv inputs w))) = runs (trace w))
  /\ exists agent t, fst (Console.interactive_setup g w) = inr (agent, t).
Proof.
  assert (Console.run_demo_conversation g w
          = (inl (NameError "get_current_time_for_timezone"),
             {| fw := fw w;
                trace := trace w ++
                  [ EvPrint (nl +:+ str_mul "=" 60);
                    EvPrint "Time & Weather Agent - Demo Mode";
                    EvPrint (str_mul "=" 60);
                    EvPrint ("Running through the scenario's example queries..." +:+ nl) ] |}))
    as Edemo.
  { unfold Console.run_demo_conversation, Console.demo_agent.
    rewrite !ConsoleFacts.global_bound by (vm_compute; reflexivity).
    unfold Console.global, load_global.
    rewrite bool_decide_eq_false_2
      by (apply (bool_decide_eq_false_1 _); vm_compute; reflexivity).
    unfold bind, print, ret, raise, emit. cbn [fw trace].
    now rewrite <- !app_assoc. }
  split; [exact Edemo|]. split.
  - intros argv inputs Hdemo. unfold Console.main, finish.
    rewrite bool_decide_eq_true_2 by exact Hdemo. rewrite Edemo.
    cbn [fst snd trace]. split; [reflexivity|].
    unfold runs. rewrite omap_app. cbn. now rewrite app_nil_r.
  - destruct (ConsoleFacts.interactive_setup_ok g w) as (agent & t & ? & E & _).
    exists agent, t. now rewrite E.
Qed.

(** C3. A session of [run_interactive_conversation] creates its agent
    and then exactly one thread, after the banner and before the first
    read from the console; everything the session does afterwards is
    reading the console, printing, and calling [agent.run] with that
    agent and that thread. No other thread is created and nothing else
    is done with the thread, whatever the console delivers and however
    the loop ends. *)
Theorem one_thread_per_session (inputs : list stdin_event) (w : world) :
  forall g, exists agent t banner turns,
      trace (snd (Console.run_interactive_conversation g inputs w))
      = trace w ++ banner ++ [EvChatAgent agent; EvNewThread agent t] ++ turns
      /\ t = fst (get_new_thread agent (fw w))
      /\ Forall is_print banner
      /\ Forall (turn_event agent t) turns.
Proof.
  intros g.
  destruct (ConsoleFacts.interactive_setup_ok g w)
    as (agent & t & banner & Es & Et & Hb).
  rewrite (ConsoleFacts.run_interactive_conversation_loop _ _ _ _ _ _ Es).
  destruct (while_true_trace _ _ (ConsoleFacts.turn_events agent t) inputs
              {| fw := snd (get_new_thread agent (fw w));
                 trace := trace w ++ banner ++
                          [EvChatAgent agent; EvNewThread agent t] |})
    as (turns & E & Ht).
  exists agent, t, banner, turns. rewrite E. cbn [trace].
  rewrite <- !app_assoc. auto.
Qed.

(** C8. Exit words and blank lines are dealt with by the loop of
    [run_interactive_conversation] itself. With the session waiting for
    input: a line whose stripped text lowercases to quit, exit or q ends
    the loop (later console input is never read), and a line that is
    blank after stripping only makes the loop read again. In both cases
    the only new events are the read and, for an exit word, the goodbye
    line: [agent.run] is not called and the state behind the framework,
    the thread included, is as it was. *)
Theorem exit_words_never_reach_agent
    (pre rest : list stdin_event) (line : string) (w w1 : world) :
  forall g,
    Console.run_interactive_conversation g pre w = (AwaitingInput, w1) ->
    (lower (strip line) ∈ ["quit"; "exit"; "q"] ->
     Console.run_interactive_conversation g (pre ++ Line line :: rest) w
     = (Returned,
        {| fw := fw w1;
           trace := trace w1 ++ [EvInput (nl +:+ "You 2: ");
                                 EvPrint (nl +:+ "Goodbye! Have a great day!")] |}))
    /\ (strip line = EmptyString ->
        Console.run_interactive_conversation g (pre ++ [Line line]) w
        = (AwaitingInput,
           {| fw := fw w1;
              trace := trace w1 ++ [EvInput (nl +:+ "You 2: ")] |})).
Proof.
  intros g Hpre.
  destruct (ConsoleFacts.interactive_setup_ok g w) as (agent & t & ? & Es & _).
  split; intros Hline;
    rewrite (ConsoleFacts.run_interactive_conversation_more _ _ _ _ _ _ _ _ Es Hpre);
    cbn [while_true].
  - now rewrite (ConsoleFacts.turn_exit _ _ _ _ Hline).
  - now rewrite (ConsoleFacts.turn_blank _ _ _ _ Hline).
Qed.

(** C4, as the code has it. With the session waiting for input and an
    utterance on which [agent.run] raises: if the exception derives from
    [Exception], only that turn is lost: the error text is printed, the
    loop waits for the next line, and the next utterance goes to
    [agent.run] with the same agent and thread, on the state the failed
    call left. A KeyboardInterrupt out of [agent.run] ends the session
    with the goodbye line; any other exception that derives from
    BaseException only is not caught and leaves the driver. *)
Theorem failed_turn_keeps_session
    (g : Console.globals) (w w0 w1 : world) (agent : ChatAgent) (t : thread)
    (pre rest : list stdin_event) (line : string) (raised : exn) (s' : fw_state) :
  Console.interactive_setup g w = (inr (agent, t), w0) ->
  Console.run_interactive_conversation g pre w = (AwaitingInput, w1) ->
  is_utterance line ->
  agent_run agent (strip line) t (fw w1) = (inl raised, s') ->
  let tried := trace w1 ++ [EvInput (nl +:+ "You 2: ");
                            EvRun agent (strip line) t] in
  match raised with
  | Exc e =>
      let w2 := {| fw := s';
                   trace := tried ++
                     [EvPrint (nl +:+ "Error: " +:+ exc_str e);
                      EvPrint "Please try again or type 'quit' to exit."] |} in
      Console.run_interactive_conversation g (pre ++ [Line line]) w
      = (AwaitingInput, w2)
      /\ forall next, is_utterance next -> exists more,
           trace (snd (Console.run_interactive_conversation g
                         (pre ++ [Line line; Line next]) w))
           = trace w2 ++ [EvInput (nl +:+ "You 2: ");
                          EvRun agent (strip next) t] ++ more
  | KeyboardInterrupt =>
      Console.run_interactive_conversation g (pre ++ Line line :: rest) w
      = (Returned,
         {| fw := s';
            trace := tried ++
              [EvPrint (nl +:+ nl +:+ "Conversation interrupted. Goodbye!")] |})
  | BaseExc c m =>
      Console.run_interactive_conversation g (pre ++ Line line :: rest) w
      = (Escaped (BaseExc c m), {| fw := s'; trace := tried |})
  end.
Proof.
  intros Es Hpre Hline Hrun tried.
  destruct raised as [e| |c m].
  - split.
    + rewrite (ConsoleFacts.run_interactive_conversation_more _ _ _ _ _ _ _ _ Es Hpre).
      cbn [while_true]. rewrite (ConsoleFacts.turn_utterance _ _ _ _ Hline).
      cbv zeta. now rewrite Hrun.
    + intros next Hnext.
      rewrite (ConsoleFacts.run_interactive_conversation_more _ _ _ _ _ _ _ _ Es Hpre).
      cbn [while_true]. rewrite (ConsoleFacts.turn_utterance _ _ _ _ Hline).
      cbv zeta. rewrite Hrun. cbn [fst snd].
      rewrite (ConsoleFacts.turn_utterance _ _ _ _ Hnext). cbv zeta.
      cbn [fw trace].
      destruct (agent_run agent (strip next) t s') as [[[e'| |c m]|text] s''];
        subst tried; cbn [fst snd trace while_true]; eexists;
        rewrite <- !(app_assoc (trace w1)); cbn [app]; reflexivity.
  - rewrite (ConsoleFacts.run_interactive_conversation_more _ _ _ _ _ _ _ _ Es Hpre).
    cbn [while_true]. rewrite (ConsoleFacts.turn_utterance _ _ _ _ Hline).
    cbv zeta. now rewrite Hrun.
  - rewrite (ConsoleFacts.run_interactive_conversation_more _ _ _ _ _ _ _ _ Es Hpre).
    cbn [while_true]. rewrite (ConsoleFacts.turn_utterance _ _ _ _ Hline).
    cbv zeta. now rewrite Hrun.
Qed.

(** C9. The client configuration block of both scripts. With
    GITHUB_TOKEN set, its value is the token and the endpoint is the
    fixed GitHub Models address, whatever the Azure variables hold. The
    Azure key and endpoint are taken when GITHUB_TOKEN is absent, and
    only then. With neither GITHUB_TOKEN nor AZURE_OPENAI_API_KEY set the
    block raises ValueError and the script ends there: nothing was
    printed and no agent was built. *)
Theorem credential_selection_priority (environ : gmap string string) (w : world) :
  (forall gh, environ !! "GITHUB_TOKEN" = Some gh ->
     client_configuration environ w
     = (inr (gh, "https://models.github.ai/inference"),
        emit (EvPrint "Using GitHub Token for authentication") w))
  /\ (forall key ep,
        environ !! "GITHUB_TOKEN" = None ->
        environ !! "AZURE_OPENAI_API_KEY" = Some key ->
        environ !! "AZURE_OPENAI_ENDPOINT" = Some ep ->
        client_configuration environ w
        = (inr (key, ep),
           emit (EvPrint "Using Azure OpenAI Token for authentication") w))
  /\ (snd (client_configuration environ w)
      = emit (EvPrint "Using Azure OpenAI Token for authentication") w ->
      environ !! "GITHUB_TOKEN" = None)
  /\ (environ !! "GITHUB_TOKEN" = None ->
      environ !! "AZURE_OPENAI_API_KEY" = None ->
      let err :=
        ValueError "No API key found. Set GITHUB_TOKEN or AZURE_OPENAI_API_KEY." in
      client_configuration environ w = (inl err, w)
      /\ (forall argv inputs,
            Console.script environ argv inputs w = (Escaped err, w))
      /\ DevUI.module_body environ w = (inl err, w)).
Proof.
  split; [|split; [|split]].
  - intros gh E. unfold client_configuration, environ_getitem. now rewrite E.
  - intros key ep E1 E2 E3. unfold client_configuration, environ_getitem.
    now rewrite E1, E2, E3.
  - unfold client_configuration, environ_getitem.
    destruct (environ !! "GITHUB_TOKEN") as [gh|]; [|reflexivity].
    unfold bind, print, ret, emit. cbn [fst snd fw trace].
    intros E. apply (f_equal trace) in E. cbn [trace] in E.
    apply (inj (app (trace w))) in E. discriminate E.
  - intros E1 E2 err.
    assert (client_configuration environ w = (inl err, w)) as Ecfg.
    { unfold client_configuration. now rewrite E1, E2. }
    split; [exact Ecfg|]. split.
    + intros argv inputs. unfold Console.script, Console.module_body, bind.
      now rewrite Ecfg.
    + unfold DevUI.module_body, bind. now rewrite Ecfg.
Qed.

End Drivers.
End DriverFacts.

(** ** The drivers on the echo framework *)
Module DriverRuns.
Import PyStr Samples MoreSamples.

(** The demo mode of the script, with a GitHub token and the model
    names in the environment: the NameError leaves [main]; no query was
    sent. *)
Example demo_mode_fails :
  let r := @Console.script echo_framework strict_openai (with_models github_env)
             ["time_weather_agent.py"; "--demo"] [] start in
  fst r = Escaped (NameError "get_current_time_for_timezone")
  /\ runs (trace (snd r)) = [].
Proof. vm_compute. split; reflexivity. Qed.

(** The theorem on a session that has had one turn, for ["  QUIT "]
    and for a blank line. *)
Lemma exit_words_never_reach_agent_witness :
  (let w1 := snd (@Console.run_interactive_conversation echo_framework
                    console_globals [Line "hello"] start) in
   @Console.run_interactive_conversation echo_framework console_globals
     ([Line "hello"] ++ Line "  QUIT " :: [Line "again"]) start
   = (Returned,
      {| fw := fw w1;
         trace := trace w1 ++ [EvInput (nl +:+ "You 2: ");
                               EvPrint (nl +:+ "Goodbye! Have a great day!")] |}))
  /\ (let w1 := snd (@Console.run_interactive_conversation echo_framework
                       console_globals [Line "hello"] start) in
      @Console.run_interactive_conversation echo_framework console_globals
        ([Line "hello"] ++ [Line "   "]) start
      = (AwaitingInput,
         {| fw := fw w1;
            trace := trace w1 ++ [EvInput (nl +:+ "You 2: ")] |})).
Proof.
  split; intros w1.
  - apply (proj1 (@DriverFacts.exit_words_never_reach_agent echo_framework
                    [Line "hello"] [Line "again"] "  QUIT " start w1
                    console_globals ltac:(vm_compute; reflexivity))).
    vm_compute. constructor.
  - apply (proj2 (@DriverFacts.exit_words_never_reach_agent echo_framework
                    [Line "hello"] [] "   " start w1
                    console_globals ltac:(vm_compute; reflexivity))).
    vm_compute. reflexivity.
Defined.

(** The theorem on the utterance ["boom"], which the echo framework
    fails with a RuntimeError, after one good turn. *)
Lemma failed_turn_keeps_session_witness :
  fst (@Console.run_interactive_conversation echo_framework console_globals
         ([Line "hello"] ++ [Line " boom "]) start)
  = AwaitingInput.
Proof.
  destruct (@Console.interactive_setup echo_framework console_globals start)
    as [[e|[agent t]] w0] eqn:Es.
  { vm_compute in Es. discriminate Es. }
  destruct (@Console.run_interactive_conversation echo_framework
              console_globals [Line "hello"] start) as [st w1] eqn:Ep.
  assert (st = AwaitingInput) as ->.
  { apply (f_equal fst) in Ep. vm_compute in Ep. congruence. }
  assert (is_utterance " boom ") as Hline.
  { split; vm_compute; [discriminate|].
    intros Hin. repeat (apply elem_of_cons in Hin as [?|Hin]; [discriminate|]).
    now apply elem_of_nil in Hin. }
  pose proof (@DriverFacts.failed_turn_keeps_session echo_framework
                console_globals start w0 w1 agent t [Line "hello"] []
                " boom "
                (Exc {| exc_class := "RuntimeError"; exc_str := "backend down" |})
                (alter (fun log => log ++ ["boom"]) t (fw w1))
                Es Ep Hline eq_refl) as [Hnext _].
  exact (f_equal fst Hnext).
Defined.

(** C4 as first stated, at an interrupt: on the utterance ["stop"] the
    echo framework raises KeyboardInterrupt out of [agent.run]; the
    session is over (the driver has returned, it is not waiting for
    input) and the line after it never reaches [agent.run]. *)
Lemma keyboard_interrupt_ends_session :
  let r := @Console.run_interactive_conversation echo_framework console_globals
             [Line "hello"; Line "stop"; Line "again"] start in
  (forall a t s, fst (@agent_run echo_framework a "stop" t s) = inl KeyboardInterrupt)
  /\ fst r = Returned
  /\ fst r <> AwaitingInput
  /\ runs (trace (snd r)) = ["hello"; "stop"].
Proof.
  split; [reflexivity|]. vm_compute. repeat split; discriminate.
Qed.

(** The theorem on four environments. *)
Lemma credential_selection_priority_witness :
  fst (@client_configuration echo_framework both_env start)
  = inr ("ghp_x", "https://models.github.ai/inference")
  /\ fst (@client_configuration echo_framework azure_env start)
     = inr ("az_key", "https://az.example")
  /\ @Console.script echo_framework strict_openai ∅
       ["time_weather_agent.py"] [Line "hello"] start
     = (Escaped (ValueError "No API key found. Set GITHUB_TOKEN or AZURE_OPENAI_API_KEY."),
        start).
Proof.
  split; [|split].
  - apply (f_equal fst
             (proj1 (@DriverFacts.credential_selection_priority echo_framework
                       strict_openai both_env start) "ghp_x" eq_refl)).
  - apply (f_equal fst
             (proj1 (proj2 (@DriverFacts.credential_selection_priority
                              echo_framework strict_openai azure_env start))
                "az_key" "https://az.example" eq_refl eq_refl eq_refl)).
  - apply (proj2 (proj2 (proj2 (@DriverFacts.credential_selection_priority
                                  echo_framework strict_openai ∅ start)))
             (lookup_empty _) (lookup_empty _)).
Defined.

End DriverRuns.

(** ** The loop bound of a turn *)
Module OrchestratorFacts.
Import Orchestrator.

Section Bound.
Variable complete : list Message -> option OracleDecision.
Variable resolve : string -> option (string -> Invocation).

Lemma dispatching_completes (calls : list ToolCall) (th : list Message) :
  (forall c, invoke resolve c <> Unreachable) ->
  exists th', dispatching resolve calls th = Some th'.
Proof.
  intros Hup. revert th. induction calls as [|c calls IH]; intros th; simpl.
  - now exists th.
  - destruct (invoke resolve c) as [o|] eqn:E; [apply IH|].
    now destruct (Hup c).
Qed.

Lemma deciding_exhausts (budget done : nat) (th : list Message) :
  (forall snapshot, exists calls, complete snapshot = Some (ToolCalls calls)) ->
  (forall c, invoke resolve c <> Unreachable) ->
  result (deciding complete resolve budget done th) = inl ToolLoopExceededError
  /\ round_trips (deciding complete resolve budget done th) = done + budget.
Proof.
  intros Hloop Hup. revert done th.
  induction budget as [|budget IH]; intros done th; simpl;
    destruct (Hloop th) as [calls ->].
  - simpl. split; [reflexivity | lia].
  - destruct (dispatching_completes calls (th ++ map ToolCallRequest calls) Hup)
      as [th' ->].
    destruct (IH (S done) th') as [Hr Hn]. split; [exact Hr | lia].
Qed.


End Bound.


End OrchestratorFacts.

(** * Further properties *)

(** ** Normalising text *)
Module NormalisingFacts.
Import PyStr PyStrFacts LocalTools LocalToolsFacts.

Lemma lower_char_idempotent (c : ascii) :
  lower_char (lower_char c) = lower_char c.
Proof. destruct c as [[] [] [] [] [] [] [] []]; reflexivity. Qed.

Lemma lower_idempotent (s : string) : lower (lower s) = lower s.
Proof.
  induction s as [|c s IH]; simpl; [reflexivity|].
  now rewrite lower_char_idempotent, IH.
Qed.

Lemma lower_lstrip (s : string) : lower (lstrip s) = lstrip (lower s).
Proof.
  induction s as [|c s IH]; simpl; [reflexivity|].
  rewrite isspace_lower_char. now destruct (isspace c).
Qed.

Lemma lower_rstrip (s : string) : lower (rstrip s) = rstrip (lower s).
Proof.
  induction s as [|c s IH]; simpl; [reflexivity|].
  rewrite <- IH, isspace_lower_char.
  destruct (rstrip s) as [|d r]; simpl; [now destruct (isspace c) | reflexivity].
Qed.

Lemma rstrip_idempotent (s : string) : rstrip (rstrip s) = rstrip s.
Proof.
  induction s as [|c s IH]; simpl; [reflexivity|].
  destruct (rstrip s) as [|d r] eqn:E.
  - destruct (isspace c) eqn:Ec; simpl; [reflexivity | now rewrite Ec].
  - change (rstrip (String c (String d r)))
      with (match rstrip (String d r) with
            | EmptyString =>
                if isspace c then EmptyString else String c EmptyString
            | String a b => String c (String a b)
            end).
    now rewrite IH.
Qed.

Lemma lstrip_head (s : string) :
  match lstrip s with
  | EmptyString => True
  | String c _ => isspace c = false
  end.
Proof.
  induction s as [|c s IH]; simpl; [exact I|].
  destruct (isspace c) eqn:Ec; [exact IH | exact Ec].
Qed.

Lemma lstrip_rstrip_headed (s : string) :
  match s with EmptyString => True | String c _ => isspace c = false end ->
  lstrip (rstrip s) = rstrip s.
Proof.
  destruct s as [|c s]; [reflexivity|]. intros Hc. simpl.
  destruct (rstrip s); rewrite ?Hc; simpl; now rewrite Hc.
Qed.

Lemma strip_idempotent (s : string) : strip (strip s) = strip s.
Proof.
  unfold strip. rewrite (lstrip_rstrip_headed _ (lstrip_head s)).
  apply rstrip_idempotent.
Qed.

Lemma normalise_idempotent (s : string) :
  strip (lower (strip (lower s))) = strip (lower s).
Proof.
  unfold strip at 2.
  rewrite lower_rstrip, lower_lstrip, lower_idempotent.
  fold (strip (lower s)). apply strip_idempotent.
Qed.

(** X1. The two places that normalise typed text agree: stripping and
    then lowering (the exit-word test of the console loops) gives the
    same string as lowering and then stripping (the key of the city
    table), and normalising a normalised string changes nothing. *)
Theorem strip_lower_commute (s : string) :
  lower (strip s) = strip (lower s)
  /\ strip (lower (strip (lower s))) = strip (lower s).
Proof.
  split; [|apply normalise_idempotent].
  unfold strip. now rewrite lower_rstrip, lower_lstrip.
Qed.

(** X2. The name under which a city is found is itself a valid
    argument: when [get_timezone_for_city] names a timezone for [city],
    it names the same timezone for [city.lower().strip()], and when it
    does not know [city] it does not know the normalised name either. *)
Theorem normalised_name_is_accepted (city : string) :
  let key := strip (lower city) in
  (forall tz,
     get_timezone_for_city city
     = "The timezone for " +:+ city +:+ " is " +:+ tz +:+ "." ->
     get_timezone_for_city key
     = "The timezone for " +:+ key +:+ " is " +:+ tz +:+ ".")
  /\ (get_timezone_for_city city
      = "Unknown city '" +:+ city +:+ "'. Try a major city name." ->
      get_timezone_for_city key
      = "Unknown city '" +:+ key +:+ "'. Try a major city name.").
Proof.
  intros key. split.
  - intros tz E%returns_timezone_iff. apply returns_timezone_iff.
    unfold key. now rewrite normalise_idempotent.
  - intros E%returns_unknown_iff. apply returns_unknown_iff.
    unfold key. now rewrite normalise_idempotent.
Qed.

Lemma normalised_name_is_accepted_witness :
  get_timezone_for_city "new york"
  = "The timezone for new york is America/New_York.".
Proof.
  apply (proj1 (normalised_name_is_accepted "  New York ") "America/New_York").
  reflexivity.
Defined.

(** X3. A city argument that is empty or made of whitespace only is
    answered with the Unknown city message. *)
Theorem blank_city_is_unknown (city : string) :
  all_space city = true ->
  get_timezone_for_city city
  = "Unknown city '" +:+ city +:+ "'. Try a major city name.".
Proof.
  intros Hs. apply returns_unknown_iff.
  unfold strip. rewrite lstrip_all_space_nil by now rewrite all_space_lower.
  reflexivity.
Qed.

Lemma blank_city_is_unknown_witness :
  get_timezone_for_city "   " = "Unknown city '   '. Try a major city name.".
Proof. apply blank_city_is_unknown. reflexivity. Defined.

End NormalisingFacts.

(** ** Console loops on typed lines *)
Section LineLoops.
Context `{AgentFramework}.
Import PyStr.

Lemma runs_app (a b : list event) : runs (a ++ b) = runs a ++ runs b.
Proof. apply omap_app. Qed.

Lemma reads_app (a b : list event) : reads (a ++ b) = reads a ++ reads b.
Proof. apply omap_app. Qed.

Lemma naps_app (a b : list event) : naps (a ++ b) = naps a ++ naps b.
Proof. apply omap_app. Qed.

Lemma agents_built_app (a b : list event) :
  agents_built (a ++ b) = agents_built a ++ agents_built b.
Proof. apply omap_app. Qed.

(** A loop body that treats blank lines, utterances and failed reads
    the way both console loops do. *)
Variables (agent : ChatAgent) (t : thread) (prompt : string).
Variable body : stdin_event -> M control.

Hypothesis body_blank : forall line w,
  strip line = EmptyString ->
  exists evs,
    body (Line line) w = (inr Continue, {| fw := fw w; trace := trace w ++ evs |})
    /\ runs evs = [].

Hypothesis body_utterance : forall line w,
  is_utterance line ->
  (forall e, fst (agent_run agent (strip line) t (fw w)) = inl e ->
             exists pe, e = Exc pe) ->
  exists evs,
    body (Line line) w
    = (inr Continue,
       {| fw := snd (agent_run agent (strip line) t (fw w));
          trace := trace w ++ evs |})
    /\ runs evs = [strip line].

Hypothesis body_failed_read : forall e w,
  exists evs,
    body (InputRaises (Exc e)) w
    = (inr Continue, {| fw := fw w; trace := trace w ++ evs |})
    /\ runs evs = [] /\ reads evs = [prompt].

Lemma while_true_lines (lines : list string) (w : world) :
  Forall (fun line => lower (strip line) ∉ ["quit"; "exit"; "q"]) lines ->
  (forall line, line ∈ lines -> forall s e,
      fst (agent_run agent (strip line) t s) = inl e -> exists pe, e = Exc pe) ->
  exists w',
    while_true body (map Line lines) w = (AwaitingInput, w')
    /\ runs (trace w')
       = runs (trace w)
         ++ map strip (filter (fun line => strip line <> EmptyString) lines).
Proof.
  revert w. induction lines as [|line lines IH]; intros w Hnq Hexc.
  - exists w. cbn. now rewrite app_nil_r.
  - apply Forall_cons in Hnq as [Hq Hnq].
    assert (forall l, l ∈ lines -> forall s e,
               fst (agent_run agent (strip l) t s) = inl e ->
               exists pe, e = Exc pe) as Hexc'.
    { intros l Hl. apply Hexc. now right. }
    cbn [map while_true].
    destruct (decide (strip line = EmptyString)) as [Hb|Hb].
    + destruct (body_blank line w Hb) as (evs & -> & Hr).
      destruct (IH {| fw := fw w; trace := trace w ++ evs |} Hnq Hexc')
        as (w' & -> & Hw').
      exists w'. split; [reflexivity|]. rewrite Hw'. cbn [trace].
      rewrite runs_app, Hr, app_nil_r.
      rewrite filter_cons_False by (intros Hne; now apply Hne).
      reflexivity.
    + destruct (body_utterance line w (conj Hb Hq)) as (evs & -> & Hr).
      { apply Hexc. now left. }
      destruct (IH {| fw := snd (agent_run agent (strip line) t (fw w));
                      trace := trace w ++ evs |} Hnq Hexc')
        as (w' & -> & Hw').
      exists w'. split; [reflexivity|]. rewrite Hw'. cbn [trace].
      rewrite runs_app, Hr, filter_cons_True by exact Hb.
      cbn [map]. now rewrite <- app_assoc.
Qed.

Lemma while_true_failed_reads (n : nat) (e : py_exception) (w : world) :
  exists w',
    while_true body (replicate n (InputRaises (Exc e))) w = (AwaitingInput, w')
    /\ fw w' = fw w
    /\ runs (trace w') = runs (trace w)
    /\ reads (trace w') = reads (trace w) ++ replicate n prompt.
Proof.
  revert w. induction n as [|n IH]; intros w.
  - exists w. cbn. now rewrite app_nil_r.
  - cbn [replicate while_true].
    destruct (body_failed_read e w) as (evs & -> & Hr & Hi).
    destruct (IH {| fw := fw w; trace := trace w ++ evs |})
      as (w' & -> & Hf & Hw' & Hreads).
    exists w'. split; [reflexivity|]. cbn [fw trace] in *.
    rewrite Hf, Hw', Hreads, runs_app, reads_app, Hr, Hi, app_nil_r.
    rewrite <- app_assoc. auto.
Qed.

End LineLoops.

(** ** Sessions of the console loops *)
Module SessionFacts.
Import PyStr.

Section Sessions.
Context `{AgentFramework}.

Lemma runs_prints (evs : list event) : Forall is_print evs -> runs evs = [].
Proof.
  induction 1 as [|e evs He _ IH]; [reflexivity|].
  destruct e; try contradiction. exact IH.
Qed.

Lemma console_body_blank agent t line w :
  strip line = EmptyString ->
  exists evs,
    Console.interactive_turn agent t (Line line) w
    = (inr Continue, {| fw := fw w; trace := trace w ++ evs |})
    /\ runs evs = [].
Proof.
  intros Hb. rewrite (ConsoleFacts.turn_blank _ _ _ _ Hb).
  now exists [EvInput (nl +:+ "You 2: ")].
Qed.

Lemma console_body_utterance agent t line w :
  is_utterance line ->
  (forall e, fst (agent_run agent (strip line) t (fw w)) = inl e ->
             exists pe, e = Exc pe) ->
  exists evs,
    Console.interactive_turn agent t (Line line) w
    = (inr Continue,
       {| fw := snd (agent_run agent (strip line) t (fw w));
          trace := trace w ++ evs |})
    /\ runs evs = [strip line].
Proof.
  intros Hu Hexc. rewrite (ConsoleFacts.turn_utterance _ _ _ _ Hu). cbv zeta.
  destruct (fst (agent_run agent (strip line) t (fw w))) as [[e| |c m]|text].
  - eexists. rewrite <- app_assoc. split; reflexivity.
  - destruct (Hexc _ eq_refl) as [? [=]].
  - destruct (Hexc _ eq_refl) as [? [=]].
  - eexists. rewrite <- app_assoc. split; reflexivity.
Qed.

Lemma console_body_failed_read agent t e w :
  exists evs,
    Console.interactive_turn agent t (InputRaises (Exc e)) w
    = (inr Continue, {| fw := fw w; trace := trace w ++ evs |})
    /\ runs evs = [] /\ reads evs = [nl +:+ "You 2: "].
Proof.
  rewrite ConsoleFacts.turn_input_raises. cbv zeta.
  eexists. rewrite <- app_assoc. repeat split; reflexivity.
Qed.

Lemma runs_after_setup (tr banner : list event) agent t :
  Forall is_print banner ->
  runs (tr ++ banner ++ [EvChatAgent agent; EvNewThread agent t]) = runs tr.
Proof.
  intros Hb. rewrite !runs_app, (runs_prints _ Hb). cbn.
  now rewrite app_nil_r.
Qed.

(** X4. What reaches the agent in a session of typed lines of
    [run_interactive_conversation]: when none of the lines is an exit
    word and [agent.run] fails on them, if at all, with exceptions that
    derive from [Exception], the session is still waiting for input
    after the last line, and [agent.run] was called once per line that
    is not blank, in the order typed, with the line stripped of
    surrounding whitespace. *)
Theorem typed_lines_reach_agent (lines : list string) (w : world) :
  Forall (fun line => lower (strip line) ∉ ["quit"; "exit"; "q"]) lines ->
  (forall line, line ∈ lines -> forall a t s e,
      fst (agent_run a (strip line) t s) = inl e -> exists pe, e = Exc pe) ->
  forall g, exists w',
      Console.run_interactive_conversation g (map Line lines) w
      = (AwaitingInput, w')
      /\ runs (trace w')
         = runs (trace w)
           ++ map strip (filter (fun line => strip line <> EmptyString) lines).
Proof.
  intros Hnq Hexc g.
  destruct (ConsoleFacts.interactive_setup_ok g w)
    as (agent & t & banner & Es & _ & Hb).
  rewrite (ConsoleFacts.run_interactive_conversation_loop _ _ _ _ _ _ Es).
  destruct (while_true_lines agent t _
              (console_body_blank agent t) (console_body_utterance agent t)
              lines
              {| fw := snd (get_new_thread agent (fw w));
                 trace := trace w ++ banner ++
                          [EvChatAgent agent; EvNewThread agent t] |} Hnq)
    as (w' & E & Hr).
  { intros line Hin. apply (Hexc line Hin). }
  exists w'. split; [exact E|]. rewrite Hr. cbn [trace].
  now rewrite (runs_after_setup _ _ _ _ Hb).
Qed.


(** X6. A KeyboardInterrupt raised by [input()] ends a session of
    [run_interactive_conversation] at once: the goodbye line is printed,
    the driver returns, whatever else the console would deliver is not
    read, and [agent.run] is not called. *)
Theorem interrupt_at_prompt_ends_session
    (pre rest : list stdin_event) (w w1 : world) :
  forall g,
    Console.run_interactive_conversation g pre w = (AwaitingInput, w1) ->
    Console.run_interactive_conversation g
      (pre ++ InputRaises KeyboardInterrupt :: rest) w
    = (Returned,
       {| fw := fw w1;
          trace := trace w1 ++
            [EvInput (nl +:+ "You 2: ");
             EvPrint (nl +:+ nl +:+ "Conversation interrupted. Goodbye!")] |}).
Proof.
  intros g Hpre.
  destruct (ConsoleFacts.interactive_setup_ok g w) as (agent & t & ? & Es & _).
  rewrite (ConsoleFacts.run_interactive_conversation_more _ _ _ _ _ _ _ _ Es Hpre).
  cbn [while_true]. rewrite ConsoleFacts.turn_input_raises. cbv zeta.
  now rewrite <- app_assoc.
Qed.

(** X7. A turn that succeeds, in [run_interactive_conversation]: the
    stripped line goes to [agent.run] on the session's agent and thread,
    the reply text is printed after the Agent label, the loop waits for
    the next line, and the state the call left is the state the next
    turn starts from. *)
Theorem answered_turn_is_printed
    (g : Console.globals) (w w0 w1 : world) (agent : ChatAgent) (t : thread)
    (pre : list stdin_event) (line text : string) (s' : fw_state) :
  Console.interactive_setup g w = (inr (agent, t), w0) ->
  Console.run_interactive_conversation g pre w = (AwaitingInput, w1) ->
  is_utterance line ->
  agent_run agent (strip line) t (fw w1) = (inr text, s') ->
  Console.run_interactive_conversation g (pre ++ [Line line]) w
  = (AwaitingInput,
     {| fw := s';
        trace := trace w1 ++
          [EvInput (nl +:+ "You 2: ");
           EvRun agent (strip line) t;
           EvPrint (nl +:+ "Agent: " +:+ text)] |}).
Proof.
  intros Es Hpre Hline Hrun.
  rewrite (ConsoleFacts.run_interactive_conversation_more _ _ _ _ _ _ _ _ Es Hpre).
  cbn [while_true]. rewrite (ConsoleFacts.turn_utterance _ _ _ _ Hline).
  cbv zeta. rewrite Hrun. cbn [fst snd]. now rewrite <- app_assoc.
Qed.

(** X8. The loop of [main_console], given an agent and a thread: the
    four ways a turn can end, for an utterance typed while the loop
    waits for input. A reply is printed after the Agent label and the
    loop goes on; an exception that derives from [Exception] is printed
    after the Error label and the loop goes on; a KeyboardInterrupt ends
    the loop with the goodbye line; anything else leaves the loop
    uncaught. In every case the state is the one [agent.run] left. *)
Theorem main_console_turn_outcomes
    (agent : ChatAgent) (t : thread) (w w1 : world)
    (pre rest : list stdin_event) (line : string)
    (outcome : exn + string) (s' : fw_state) :
  while_true (DevUI.console_turn agent t) pre w = (AwaitingInput, w1) ->
  is_utterance line ->
  agent_run agent (strip line) t (fw w1) = (outcome, s') ->
  let tried := trace w1 ++ [EvInput "You: "; EvRun agent (strip line) t] in
  match outcome with
  | inr text =>
      while_true (DevUI.console_turn agent t) (pre ++ [Line line]) w
      = (AwaitingInput,
         {| fw := s';
            trace := tried ++ [EvPrint ("Agent: " +:+ text +:+ nl)] |})
  | inl (Exc e) =>
      while_true (DevUI.console_turn agent t) (pre ++ [Line line]) w
      = (AwaitingInput,
         {| fw := s';
            trace := tried ++ [EvPrint ("Error: " +:+ exc_str e +:+ nl)] |})
  | inl KeyboardInterrupt =>
      while_true (DevUI.console_turn agent t) (pre ++ Line line :: rest) w
      = (Returned,
         {| fw := s';
            trace := tried ++ [EvPrint (nl +:+ nl +:+ "Goodbye!")] |})
  | inl (BaseExc c m) =>
      while_true (DevUI.console_turn agent t) (pre ++ Line line :: rest) w
      = (Escaped (BaseExc c m), {| fw := s'; trace := tried |})
  end.
Proof.
  intros Hpre Hline Hrun tried.
  destruct outcome as [[e| |c m]|text];
    rewrite while_true_app, Hpre; cbn [while_true];
    rewrite (DevUIFacts.console_turn_utterance _ _ _ _ Hline);
    cbv zeta; rewrite Hrun; reflexivity.
Qed.

End Sessions.
End SessionFacts.

(** ** The loop of the scripted driver *)
Module DemoLoopFacts.

Section DemoLoop.
Context `{AgentFramework}.

Lemma demo_turn_outcomes agent t query w :
  Console.demo_turn agent t query w
  = let ran := agent_run agent query t (fw w) in
    let tr := trace w ++ [EvPrint (nl +:+ str_mul Console.rule 50);
                          EvPrint ("User: " +:+ query);
                          EvRun agent query t] in
    match fst ran with
    | inr text =>
        (inr tt,
         {| fw := snd ran;
            trace := tr ++ [EvPrint (nl +:+ "Agent: " +:+ text); EvSleep 1] |})
    | inl (Exc e) =>
        (inr tt,
         {| fw := snd ran;
            trace := tr ++ [EvPrint (nl +:+ "Error: " +:+ exc_str e); EvSleep 1] |})
    | inl KeyboardInterrupt =>
        (inl KeyboardInterrupt, {| fw := snd ran; trace := tr |})
    | inl (BaseExc c m) => (inl (BaseExc c m), {| fw := snd ran; trace := tr |})
    end.
Proof.
  unfold Console.demo_turn, try_except, bind, run, print, sleep, ret, emit.
  cbn [fw trace fst snd].
  destruct (agent_run agent query t (fw w)) as [[[e| |c m]|text] s];
    cbn [fw trace fst snd]; rewrite <- ?app_assoc; reflexivity.
Qed.

(** X9. The loop of [run_demo_conversation], given an agent and a
    thread: when [agent.run] fails, if at all, with exceptions that
    derive from [Exception], every query of the list is sent, unchanged
    and in order, to that agent on that thread; a failed query is
    reported and does not stop the loop; there is a pause of one second
    after every query; nothing is read from the console and no agent or
    thread is created. *)
Theorem demo_loop_sends_every_query
    (agent : ChatAgent) (t : thread) (queries : list string) (w : world) :
  (forall q, q ∈ queries -> forall s e,
      fst (agent_run agent q t s) = inl e -> exists pe, e = Exc pe) ->
  exists evs w',
    for_each queries (Console.demo_turn agent t) w = (inr tt, w')
    /\ trace w' = trace w ++ evs
    /\ runs evs = queries
    /\ naps evs = replicate (length queries) 1
    /\ Forall (fun e => match e with
                        | EvPrint _ | EvSleep _ => True
                        | EvRun a _ t' => a = agent /\ t' = t
                        | EvInput _ | EvChatAgent _ | EvNewThread _ _ => False
                        end) evs.
Proof.
  revert w. induction queries as [|q queries IH]; intros w Hexc.
  - exists [], w. cbn. rewrite app_nil_r. repeat split. constructor.
  - assert (forall q', q' ∈ queries -> forall s e,
               fst (agent_run agent q' t s) = inl e -> exists pe, e = Exc pe)
      as Hexc'.
    { intros q' Hq'. apply Hexc. now right. }
    cbn [for_each]. unfold bind at 1. rewrite demo_turn_outcomes. cbv zeta.
    pose proof (Hexc q (list_elem_of_here _ _) (fw w)) as Hq.
    destruct (fst (agent_run agent q t (fw w))) as [[e| |c m]|text].
    + match goal with |- context [for_each queries _ ?w1] =>
        destruct (IH w1 Hexc') as (evs & w' & -> & Et & Hr & Hn & Hall)
      end.
      eexists. exists w'. split; [reflexivity|]. rewrite Et. cbn [trace].
      rewrite <- !app_assoc. split; [reflexivity|].
      rewrite !runs_app, !naps_app, Hr, Hn. cbn.
      repeat split. repeat (constructor; [cbn; auto|]). exact Hall.
    + destruct (Hq _ eq_refl) as [? [=]].
    + destruct (Hq _ eq_refl) as [? [=]].
    + match goal with |- context [for_each queries _ ?w1] =>
        destruct (IH w1 Hexc') as (evs & w' & -> & Et & Hr & Hn & Hall)
      end.
      eexists. exists w'. split; [reflexivity|]. rewrite Et. cbn [trace].
      rewrite <- !app_assoc. split; [reflexivity|].
      rewrite !runs_app, !naps_app, Hr, Hn. cbn.
      repeat split. repeat (constructor; [cbn; auto|]). exact Hall.
Qed.

(** X10. The loop of [run_demo_conversation] has no handler for
    KeyboardInterrupt: when [agent.run] raises something that does not
    derive from [Exception], the exception leaves the loop at that
    query, without the pause, and the queries after it are not sent. *)
Theorem demo_loop_stops_on_interrupt
    (agent : ChatAgent) (t : thread) (query : string) (later : list string)
    (w : world) (raised : exn) (s' : fw_state) :
  agent_run agent query t (fw w) = (inl raised, s') ->
  (forall pe, raised <> Exc pe) ->
  for_each (query :: later) (Console.demo_turn agent t) w
  = (inl raised,
     {| fw := s';
        trace := trace w ++ [EvPrint (nl +:+ str_mul Console.rule 50);
                             EvPrint ("User: " +:+ query);
                             EvRun agent query t] |}).
Proof.
  intros Hrun Hbase. cbn [for_each]. unfold bind at 1.
  rewrite demo_turn_outcomes. cbv zeta. rewrite Hrun. cbn [fst snd].
  destruct raised as [pe| |c m]; [now destruct (Hbase pe) | reflexivity..].
Qed.

End DemoLoop.
End DemoLoopFacts.

(** ** From the environment to the agent *)
Module StartupFacts.

Section Startup.
Context {F : AgentFramework} {P : DevUIPackage F} `{OpenAIPackage}
        {A : DevUI.AgentFactory F}.

Lemma agents_built_prints (evs : list event) :
  Forall is_print evs -> agents_built evs = [].
Proof.
  induction 1 as [|e evs He _ IH]; [reflexivity|].
  destruct e; try contradiction. exact IH.
Qed.

Lemma agents_built_turns agent t (evs : list event) :
  Forall (turn_event agent t) evs -> agents_built evs = [].
Proof.
  induction 1 as [|e evs He _ IH]; [reflexivity|].
  destruct e; try contradiction; exact IH.
Qed.

Lemma interactive_agent_is (g : Console.globals) :
  Console.interactive_agent g
  = new_ChatAgent
      {| chat_client := Console.medium_client g;
         agent_name := "TimeWeatherAgent";
         instructions := Console.AGENT_INSTRUCTIONS;
         tools :=
           [ MCPStreamableHTTPTool "UserService" (Console.USER_MCP_URL g)
               (Some "never_require");
             MCPStreamableHTTPTool "WeatherService" (Console.WEATHER_MCP_URL g)
               (Some "never_require") ] |}.
Proof.
  unfold Console.interactive_agent.
  rewrite !ConsoleFacts.global_bound by (vm_compute; reflexivity).
  reflexivity.
Qed.

Lemma interactive_session_trace (g : Console.globals)
    (inputs : list stdin_event) (w : world) :
  let agent :=
    {| chat_client := Console.medium_client g;
       agent_name := "TimeWeatherAgent";
       instructions := Console.AGENT_INSTRUCTIONS;
       tools :=
         [ MCPStreamableHTTPTool "UserService" (Console.USER_MCP_URL g)
             (Some "never_require");
           MCPStreamableHTTPTool "WeatherService" (Console.WEATHER_MCP_URL g)
             (Some "never_require") ] |} in
  exists t banner turns,
    trace (snd (Console.run_interactive_conversation g inputs w))
    = trace w ++ banner ++ [EvChatAgent agent; EvNewThread agent t] ++ turns
    /\ Forall is_print banner
    /\ Forall (turn_event agent t) turns.
Proof.
  intros agent.
  destruct (ConsoleFacts.interactive_banner_prints w) as (banner & Eb & Hb).
  set (t := fst (get_new_thread agent (fw w))).
  assert (Console.interactive_setup g w
          = (inr (agent, t),
             {| fw := snd (get_new_thread agent (fw w));
                trace := trace w ++ banner ++
                         [EvChatAgent agent; EvNewThread agent t] |})) as Es.
  { unfold Console.interactive_setup, bind at 1. rewrite Eb.
    unfold bind at 1. rewrite interactive_agent_is. fold agent.
    unfold new_ChatAgent, bind, new_thread, ret, emit. cbn [fw trace].
    subst t. destruct (get_new_thread agent (fw w)) as [t s].
    cbn [fst snd fw trace]. now rewrite <- !app_assoc. }
  rewrite (ConsoleFacts.run_interactive_conversation_loop _ _ _ _ _ _ Es).
  destruct (while_true_trace _ _ (ConsoleFacts.turn_events agent t) inputs
              {| fw := snd (get_new_thread agent (fw w));
                 trace := trace w ++ banner ++
                          [EvChatAgent agent; EvNewThread agent t] |})
    as (turns & E & Ht).
  exists t, banner, turns. rewrite E. cbn [trace].
  rewrite <- !app_assoc. auto.
Qed.

Lemma module_body_built (environ : gmap string string) (w w' : world)
    (tok ep : string) :
  client_configuration environ w = (inr (tok, ep), w') ->
  let client := {| base_url := ep; api_key := tok |} in
  chat_client_init (environ !! "COMPLETION_DEPLOYMENT_NAME") tok client = None ->
  chat_client_init (environ !! "MEDIUM_DEPLOYMENT_MODEL_NAME") tok client = None ->
  chat_client_init (environ !! "SMALL_DEPLOYMENT_MODEL_NAME") tok client = None ->
  let chat name :=
    {| model_id := environ !! name; client_api_key := tok;
       async_client := client |} in
  Console.module_body environ w
  = (inr {| Console.token := tok;
            Console.endpoint := ep;
            Console.async_openai_client := client;
            Console.completion_client := chat "COMPLETION_DEPLOYMENT_NAME";
            Console.medium_client := chat "MEDIUM_DEPLOYMENT_MODEL_NAME";
            Console.small_client := chat "SMALL_DEPLOYMENT_MODEL_NAME";
            Console.USER_MCP_URL :=
              default "http://localhost:8002/mcp" (environ !! "USER_MCP_URL");
            Console.WEATHER_MCP_URL :=
              default "http://localhost:8003/mcp" (environ !! "WEATHER_MCP_URL") |},
     w').
Proof.
  intros Ecfg client Hc Hm Hs chat.
  unfold Console.module_body, bind at 1. rewrite Ecfg. cbn [fst snd].
  unfold new_OpenAIChatClient. fold client. rewrite Hc, Hm, Hs.
  reflexivity.
Qed.

(** X11. An Azure key without its endpoint: with GITHUB_TOKEN absent,
    AZURE_OPENAI_API_KEY set and AZURE_OPENAI_ENDPOINT missing, the
    configuration block raises KeyError for AZURE_OPENAI_ENDPOINT, and
    [time_weather_agent.py] ends there, with nothing printed and no
    agent built, whatever the command line says. *)
Theorem azure_key_needs_endpoint
    (environ : gmap string string) (key : string) (w : world) :
  environ !! "GITHUB_TOKEN" = None ->
  environ !! "AZURE_OPENAI_API_KEY" = Some key ->
  environ !! "AZURE_OPENAI_ENDPOINT" = None ->
  client_configuration environ w = (inl (KeyError "AZURE_OPENAI_ENDPOINT"), w)
  /\ (forall argv inputs,
        Console.script environ argv inputs w
        = (Escaped (KeyError "AZURE_OPENAI_ENDPOINT"), w)).
Proof.
  intros E1 E2 E3.
  assert (client_configuration environ w
          = (inl (KeyError "AZURE_OPENAI_ENDPOINT"), w)) as Ecfg.
  { unfold client_configuration, environ_getitem. now rewrite E1, E2, E3. }
  split; [exact Ecfg|]. intros argv inputs.
  unfold Console.script, Console.module_body, bind. now rewrite Ecfg.
Qed.

(** X12. From the environment to the agent, in [time_weather_agent.py]
    run without [--demo]: when the configuration block selects a token
    and an endpoint and the three chat client constructors accept their
    settings, the one agent the script builds talks to that endpoint
    with that token, uses the model named by
    MEDIUM_DEPLOYMENT_MODEL_NAME, and has exactly the two MCP tools, at
    USER_MCP_URL and WEATHER_MCP_URL or, when these are unset, at ports
    8002 and 8003 of localhost under /mcp, both with approval mode
    never_require. Every call of [agent.run] in the session is made on
    that agent. *)
Theorem interactive_agent_follows_environment
    (environ : gmap string string) (argv : list string)
    (inputs : list stdin_event) (w w' : world) (tok ep : string) :
  client_configuration environ w = (inr (tok, ep), w') ->
  chat_client_init (environ !! "COMPLETION_DEPLOYMENT_NAME") tok
    {| base_url := ep; api_key := tok |} = None ->
  chat_client_init (environ !! "MEDIUM_DEPLOYMENT_MODEL_NAME") tok
    {| base_url := ep; api_key := tok |} = None ->
  chat_client_init (environ !! "SMALL_DEPLOYMENT_MODEL_NAME") tok
    {| base_url := ep; api_key := tok |} = None ->
  argv !! 1 <> Some "--demo" ->
  let agent :=
    {| chat_client :=
         {| model_id := environ !! "MEDIUM_DEPLOYMENT_MODEL_NAME";
            client_api_key := tok;
            async_client := {| base_url := ep; api_key := tok |} |};
       agent_name := "TimeWeatherAgent";
       instructions := Console.AGENT_INSTRUCTIONS;
       tools :=
         [ MCPStreamableHTTPTool "UserService"
             (default "http://localhost:8002/mcp" (environ !! "USER_MCP_URL"))
             (Some "never_require");
           MCPStreamableHTTPTool "WeatherService"
             (default "http://localhost:8003/mcp" (environ !! "WEATHER_MCP_URL"))
             (Some "never_require") ] |} in
  exists t banner turns,
    trace (snd (Console.script environ argv inputs w))
    = trace w' ++ banner ++ [EvChatAgent agent; EvNewThread agent t] ++ turns
    /\ Forall is_print banner
    /\ Forall (turn_event agent t) turns.
Proof.
  intros Ecfg Hc Hm Hs Hmode agent.
  unfold Console.script.
  rewrite (module_body_built _ _ _ _ _ Ecfg Hc Hm Hs).
  unfold Console.main. rewrite bool_decide_eq_false_2 by exact Hmode.
  apply interactive_session_trace.
Qed.


(** X14. A missing Dev UI package does not lead to console mode. When
    the import of [serve] raises ImportError and [--console] was not
    given, [main] prints the import error and the install hint and
    returns: no agent is built, nothing is read from the console, and
    the console driver is not started. *)
Theorem missing_devui_is_no_fallback
    (g : DevUI.globals) (argv : list string) (inputs : list stdin_event)
    (w : world) (e : py_exception) :
  import_serve = ImportFails e ->
  argv !! 1 <> Some "--console" ->
  DevUIEntry.main g argv inputs w
  = (Returned,
     {| fw := fw w;
        trace := trace w ++
          [ EvPrint (str_mul "=" 60);
            EvPrint "Dev UI import failed!";
            EvPrint ("Import error details: " +:+ exc_str e);
            EvPrint (str_mul "=" 60);
            EvPrint (nl +:+ "Install it with: pip install agent-framework-devui --pre");
            EvPrint (str_mul "=" 60) ] |}).
Proof.
  intros Himp Hmode. unfold DevUIEntry.main, DevUIEntry.main_with_devui.
  rewrite bool_decide_eq_false_2 by exact Hmode. rewrite Himp.
  unfold bind, print, ret, emit. cbn [fw trace].
  now rewrite <- !app_assoc.
Qed.

End Startup.
End StartupFacts.

(** ** The further properties on the sample instances *)
Module MoreRuns.
Import PyStr Samples MoreSamples.

Ltac not_an_exit_word :=
  vm_compute; intros Hin;
  repeat (apply elem_of_cons in Hin as [Hin|Hin]; [discriminate Hin|]);
  now apply elem_of_nil in Hin.

(** Three typed lines, one of them blank, one failing. *)
Lemma typed_lines_reach_agent_witness :
  exists w',
    @Console.run_interactive_conversation echo_framework console_globals
      (map Line ["hello"; "  "; " boom "]) start
    = (AwaitingInput, w')
    /\ runs (trace w') = ["hello"; "boom"].
Proof.
  apply (@SessionFacts.typed_lines_reach_agent echo_framework
           ["hello"; "  "; " boom "] start
           ltac:(repeat (constructor; [not_an_exit_word|]); constructor)
           ltac:(intros line Hin a t s e He;
                 repeat (apply elem_of_cons in Hin as [->|Hin];
                         [vm_compute in He;
                          first [discriminate He
                                | injection He as <-; eexists; reflexivity]|]);
                 now apply elem_of_nil in Hin)
           console_globals).
Defined.


Lemma interrupt_at_prompt_ends_session_witness :
  let w1 := snd (@Console.run_interactive_conversation echo_framework
                   console_globals [Line "hello"] start) in
  @Console.run_interactive_conversation echo_framework console_globals
    ([Line "hello"] ++ InputRaises KeyboardInterrupt :: [Line "again"]) start
  = (Returned,
     {| fw := fw w1;
        trace := trace w1 ++
          [EvInput (nl +:+ "You 2: ");
           EvPrint (nl +:+ nl +:+ "Conversation interrupted. Goodbye!")] |}).
Proof.
  intros w1.
  apply (@SessionFacts.interrupt_at_prompt_ends_session echo_framework
           [Line "hello"] [Line "again"] start w1 console_globals).
  vm_compute. reflexivity.
Defined.

Lemma answered_turn_is_printed_witness :
  runs (trace (snd (@Console.run_interactive_conversation echo_framework
                      console_globals ([Line "hello"] ++ [Line " again "]) start)))
  = ["hello"; "again"].
Proof.
  destruct (@Console.interactive_setup echo_framework console_globals start)
    as [[e|[agent t]] w0] eqn:Es.
  { vm_compute in Es. discriminate Es. }
  destruct (@Console.run_interactive_conversation echo_framework
              console_globals [Line "hello"] start) as [st w1] eqn:Ep.
  assert (st = AwaitingInput) as ->.
  { apply (f_equal fst) in Ep. vm_compute in Ep. congruence. }
  assert (runs (trace w1) = ["hello"]) as Hw1.
  { change w1 with (snd (AwaitingInput, w1)). rewrite <- Ep.
    vm_compute. reflexivity. }
  assert (is_utterance " again ") as Hline.
  { split; [vm_compute; discriminate | not_an_exit_word]. }
  rewrite (@SessionFacts.answered_turn_is_printed echo_framework
             console_globals start w0 w1 agent t [Line "hello"] " again "
             "echo: again" (alter (fun log => log ++ ["again"]) t (fw w1))
             Es Ep Hline eq_refl).
  cbn [snd trace]. rewrite runs_app, Hw1. reflexivity.
Defined.

Lemma main_console_turn_outcomes_witness :
  fst (while_true (@DevUI.console_turn echo_framework bare_agent 0)
         ([Line "hello"] ++ [Line " boom "])
         (@Build_world echo_framework [[]] []))
  = AwaitingInput.
Proof.
  destruct (while_true (@DevUI.console_turn echo_framework bare_agent 0)
              [Line "hello"] (@Build_world echo_framework [[]] []))
    as [st w1] eqn:Ep.
  assert (st = AwaitingInput) as ->.
  { apply (f_equal fst) in Ep. vm_compute in Ep. congruence. }
  assert (is_utterance " boom ") as Hline.
  { split; [vm_compute; discriminate | not_an_exit_word]. }
  pose proof (@SessionFacts.main_console_turn_outcomes echo_framework
                bare_agent 0 (@Build_world echo_framework [[]] []) w1
                [Line "hello"] [] " boom "
                (inl (Exc {| exc_class := "RuntimeError";
                             exc_str := "backend down" |}))
                (alter (fun log => log ++ ["boom"]) 0 (fw w1))
                Ep Hline eq_refl) as Hturn.
  exact (f_equal fst Hturn).
Defined.

(** The five queries of the script on the echo framework. *)
Lemma demo_loop_sends_every_query_witness :
  exists evs w',
    @for_each echo_framework _ Console.demo_queries
      (@Console.demo_turn echo_framework bare_agent 0) start
    = (inr tt, w')
    /\ trace w' = trace start ++ evs
    /\ runs evs = Console.demo_queries
    /\ naps evs = [1; 1; 1; 1; 1].
Proof.
  destruct (@DemoLoopFacts.demo_loop_sends_every_query echo_framework
              bare_agent 0 Console.demo_queries start
              ltac:(intros q Hin s e He;
                    repeat (apply elem_of_cons in Hin as [->|Hin];
                            [vm_compute in He; discriminate He|]);
                    now apply elem_of_nil in Hin))
    as (evs & w' & E & Et & Hr & Hn & _).
  exists evs, w'. auto.
Defined.

Lemma demo_loop_stops_on_interrupt_witness :
  let r := @for_each echo_framework _ ["stop"; "again"]
             (@Console.demo_turn echo_framework bare_agent 0)
             (@Build_world echo_framework [[]] []) in
  fst r = inl KeyboardInterrupt /\ runs (trace (snd r)) = ["stop"].
Proof.
  intros r. subst r.
  rewrite (@DemoLoopFacts.demo_loop_stops_on_interrupt echo_framework
             bare_agent 0 "stop" ["again"]
             (@Build_world echo_framework [[]] []) KeyboardInterrupt
             [["stop"]] eq_refl ltac:(discriminate)).
  split; reflexivity.
Defined.

Lemma azure_key_needs_endpoint_witness :
  @Console.script echo_framework strict_openai azure_key_only
    ["time_weather_agent.py"] [Line "hello"] start
  = (Escaped (KeyError "AZURE_OPENAI_ENDPOINT"), start).
Proof.
  apply (proj2 (@StartupFacts.azure_key_needs_endpoint echo_framework
                  strict_openai azure_key_only "az_key" start
                  ltac:(vm_compute; reflexivity)
                  ltac:(vm_compute; reflexivity)
                  ltac:(vm_compute; reflexivity))).
Defined.

Lemma interactive_agent_follows_environment_witness :
  agents_built
    (trace (snd (@Console.script echo_framework strict_openai
                   (with_models azure_env)
                   ["time_weather_agent.py"] [Line "hello"; Line "q"] start)))
  = [ {| chat_client :=
           {| model_id := Some "gpt-4o-mini";
              client_api_key := "az_key";
              async_client := {| base_url := "https://az.example";
                                 api_key := "az_key" |} |};
         agent_name := "TimeWeatherAgent";
         instructions := Console.AGENT_INSTRUCTIONS;
         tools :=
           [ MCPStreamableHTTPTool "UserService" "http://localhost:8002/mcp"
               (Some "never_require");
             MCPStreamableHTTPTool "WeatherService" "http://localhost:8003/mcp"
               (Some "never_require") ] |} ].
Proof.
  destruct (@StartupFacts.interactive_agent_follows_environment echo_framework
              strict_openai (with_models azure_env)
              ["time_weather_agent.py"] [Line "hello"; Line "q"]
              start
              (emit (EvPrint "Using Azure OpenAI Token for authentication") start)
              "az_key" "https://az.example"
              ltac:(vm_compute; reflexivity) ltac:(vm_compute; reflexivity)
              ltac:(vm_compute; reflexivity) ltac:(vm_compute; reflexivity)
              ltac:(vm_compute; discriminate))
    as (t & banner & turns & -> & Hb & Ht).
  rewrite !agents_built_app, (StartupFacts.agents_built_prints _ Hb),
    (StartupFacts.agents_built_turns _ _ _ Ht).
  vm_compute. reflexivity.
Defined.


Lemma missing_devui_is_no_fallback_witness :
  let r := @DevUIEntry.main echo_framework devui_missing no_factory devui_globals
             ["time_weather_agent_devui.py"] [Line "hello"] start in
  fst r = Returned /\ reads (trace (snd r)) = [] /\ agents_built (trace (snd r)) = [].
Proof.
  intros r. subst r.
  rewrite (@StartupFacts.missing_devui_is_no_fallback echo_framework
             devui_missing no_factory devui_globals
             ["time_weather_agent_devui.py"]
             [Line "hello"] start
             {| exc_class := "ModuleNotFoundError";
                exc_str := "No module named 'agent_framework.devui'" |}
             eq_refl ltac:(vm_compute; discriminate)).
  repeat split.
Defined.

End MoreRuns.
